(** * Partner recommender: inference engine and model manager

    A shallow embedding of the partner-recommender service
    ([services/partner-recommender/src]) and the properties of its
    recommendation engine.

    Conventions of the embedding.
    - A Python [float] is a real number ([R]): rounding, infinities and NaN
      are not modelled.  An [int] is a [Z].
    - A function that can raise returns a [Py.result]; [try ... except] is a
      [match] on it.
    - A [dict] whose keys are company ids is a [gmap string _]; a feature
      record (a JSON object with known keys) is a Rocq record whose fields
      are optional, as the code reads every key with [.get(key, default)].
    - The collaborators of the engine are arguments: the feature store is
      a record of the answers of its three calls, a HugeCTR session is the
      function it computes, the wall clock is the sequence of its readings,
      and Redis is a map from keys to values with their time to live. *)

From Stdlib Require Import Reals Lra ZArith.
From stdpp Require Import gmap strings list sorting pretty.

#[local] Instance R_eq_dec : EqDecision R := Req_dec_T.
#[local] Instance Rlt_decision (a b : R) : Decision (a < b)%R := Rlt_dec a b.
#[local] Instance Rle_decision (a b : R) : Decision (a <= b)%R := Rle_dec a b.
#[local] Instance Rgt_decision (a b : R) : Decision (a > b)%R := Rgt_dec a b.
#[local] Instance Rge_decision (a b : R) : Decision (a >= b)%R := Rge_dec a b.

(** ** Python primitives *)

Module Py.

Inductive exn : Type :=
  | Exception (msg : string).

Inductive result (A : Type) : Type :=
  | Return (a : A)
  | Raise (e : exn).
Arguments Return {A} a.
Arguments Raise {A} e.

Definition bind {A B} (m : result A) (k : A → result B) : result B :=
  match m with
  | Return a => k a
  | Raise e => Raise e
  end.

(** [min(a, b)]: the first argument unless the second is strictly smaller. *)
Definition min (a b : R) : R := if decide (b < a)%R then b else a.

(** [max(a, b)]: the first argument unless the second is strictly larger. *)
Definition max (a b : R) : R := if decide (b > a)%R then b else a.

(** [max(a, b, c)] scans its arguments from left to right. *)
Definition max3 (a b c : R) : R := max (max a b) c.

(** [abs(x)]. *)
Definition abs (x : R) : R := if decide (x < 0)%R then (- x)%R else x.

(** [l[:k]]: a negative [k] counts from the end of the list. *)
Definition slice_to {A} (k : Z) (l : list A) : list A :=
  if decide (0 ≤ k)%Z then take (Z.to_nat k) l
  else take (length l - Z.to_nat (- k)) l.

(** [l.sort(key=key, reverse=True)].  Python's sort is stable, also with
    [reverse=True]: elements with equal keys keep their original order.
    Stability and sortedness determine the result, so the insertion sort
    below computes the list that Python's sort computes. *)
Section sort.
Context {A : Type} (key : A → R).

Fixpoint insert_desc (x : A) (l : list A) : list A :=
  match l with
  | [] => [x]
  | y :: l' =>
      if decide (key x < key y)%R then y :: insert_desc x l' else x :: l
  end.

Definition sort_desc (l : list A) : list A := foldr insert_desc [] l.

(** The order of a list sorted by descending key. *)
Definition desc (x y : A) : Prop := (key y <= key x)%R.

End sort.

End Py.

#[global] Instance result_bind : MBind Py.result := λ A B k m, Py.bind m k.
#[global] Instance result_ret : MRet Py.result := @Py.Return.

(** ** numpy and scikit-learn on one-dimensional arrays *)

Module Np.
Local Open Scope R_scope.

Definition dot (a b : list R) : R := foldr Rplus 0 (zip_with Rmult a b).

(** [np.linalg.norm(v)]: the Euclidean norm. *)
Definition norm (v : list R) : R := sqrt (dot v v).

(** [sklearn.preprocessing.normalize]: a row of norm zero is left as it is. *)
Definition normalize (v : list R) : list R :=
  let n := norm v in
  let n := if decide (n = 0) then 1 else n in
  (λ x, x / n) <$> v.

(** [cosine_similarity([a], [b])[0][0]]: the rows are normalised, then
    multiplied; rows of different lengths are refused. *)
Definition cosine_similarity (a b : list R) : Py.result R :=
  if decide (length a = length b)
  then Py.Return (dot (normalize a) (normalize b))
  else Py.Raise (Py.Exception "Incompatible dimension for X and Y matrices").

(** The cosine of the angle between two vectors, as mathematics has it. *)
Definition cos_angle (a b : list R) : R := dot a b / (norm a * norm b).

End Np.

(** ** Feature records *)

Module TractionMetrics.
Record t : Type := mk {
  funding_amount : option R;
  employee_count : option Z;
  growth_rate : option R;
  market_sentiment : option R
}.
(** [{}], the default of [features.get("traction_metrics", {})]. *)
Definition empty : t := mk None None None None.
End TractionMetrics.

Module CompanyFeatures.
Record t : Type := mk {
  company_id : option string;
  user_overlap_score : option R;
  traction_metrics : option TractionMetrics.t;
  culture_vector : option (list R)
}.
End CompanyFeatures.

(** ** config.py *)

Module Config.

(** The environment variables the modelled fields read, already parsed. *)
Record environ : Type := mk_environ {
  MODEL_VERSION : option string;
  SIMILARITY_THRESHOLD : option R;
  CACHE_TTL_SECONDS : option Z
}.

Definition no_environ : environ := mk_environ None None None.

Record t : Type := mk {
  model_version : string;
  similarity_threshold : R;
  cache_ttl_seconds : Z
}.

(** [Config()]: every field is [os.getenv(NAME, default)]. *)
Definition from_environ (env : environ) : t :=
  {| model_version := default "v1.0.0" (MODEL_VERSION env);
     similarity_threshold := default 0.1%R (SIMILARITY_THRESHOLD env);
     cache_ttl_seconds := default 3600%Z (CACHE_TTL_SECONDS env) |}.

End Config.

(** ** model_manager.py *)

Module ModelManager.

(** The input of the two-tower model for one pair of companies. *)
Record ModelInput : Type := mk_input {
  dense : list R;
  sparse_a : list Z;
  sparse_b : list Z
}.

(** A HugeCTR inference session: what [session.predict] answers, read as
    [float(predictions[0][0])]. *)
Record InferenceSession : Type := mk_session {
  session_predict : ModelInput → Py.result R
}.

Record t : Type := mk {
  model : option InferenceSession;
  model_loaded : bool;
  model_version : string
}.

(** [ModelManager(config)]. *)
Definition init (config : Config.t) : t :=
  {| model := None; model_loaded := false;
     model_version := Config.model_version config |}.

Definition set_model (m : option InferenceSession) (self : t) : t :=
  {| model := m; model_loaded := model_loaded self;
     model_version := model_version self |}.

Definition set_model_loaded (b : bool) (self : t) : t :=
  {| model := model self; model_loaded := b;
     model_version := model_version self |}.

(** [load_model]; [create] is what [CreateInferenceSession] does with the
    artifact on disk. *)
Definition load_model (create : Py.result InferenceSession) (self : t)
  : Py.result () * t :=
  match create with
  | Py.Return session =>
      (Py.Return (), set_model_loaded true (set_model (Some session) self))
  | Py.Raise e =>
      (Py.Raise e, set_model_loaded false self)
  end.

(** [reload_model]: the existing model is cleaned up, then [load_model]
    runs; its exception is raised again. *)
Definition reload_model (create : Py.result InferenceSession) (self : t)
  : Py.result () * t :=
  let self :=
    match model self with
    | Some _ => set_model_loaded false (set_model None self)
    | None => self
    end in
  load_model create self.

Record status : Type := mk_status {
  loaded : bool;
  version : string;
  gpu_available : bool
}.

(** [get_model_status]; [gpu] is the answer of [_check_gpu_availability]. *)
Definition get_model_status (gpu : bool) (self : t) : status :=
  {| loaded := model_loaded self; version := model_version self;
     gpu_available := gpu |}.

(** [predict]. *)
Definition predict (self : t) (features : ModelInput) : Py.result R :=
  if negb (model_loaded self) then Py.Raise (Py.Exception "Model not loaded")
  else
    match model self with
    | Some session => session_predict session features
    | None =>
        Py.Raise (Py.Exception "'NoneType' object has no attribute 'predict'")
    end.

(** [initialize]; [model_file_exists] is whether the weights file is on
    disk.  An exception of [load_model] is raised again. *)
Definition initialize (model_file_exists : bool)
    (create : Py.result InferenceSession) (self : t) : Py.result () * t :=
  if model_file_exists then load_model create self else (Py.Return (), self).

(** One entry of [training_history]. *)
Record training_record : Type := mk_training_record {
  timestamp : string;
  dataset_path : string;
  training_config : gmap string Z;
  training_params : gmap string Z;
  trained_model_version : string
}.

(** [train_model], on the manager and its [training_history].  The dict
    of [_create_training_config] only feeds the writes below and is not
    modelled.  What the outside does is given: [save_config] is the write of the configuration
    file, [fit] the construction, compilation and fitting of the HugeCTR
    model, [save_history] the write of the history file, [create] the
    session that [load_model] creates, [now] the clock.  Every exception
    is raised again. *)
Definition train_model (save_config fit save_history : Py.result ())
    (create : Py.result InferenceSession) (now : string)
    (dataset_path : string) (model_config training_params : gmap string Z)
    (self : t) (training_history : list training_record)
  : Py.result () * (t * list training_record) :=
  match save_config with
  | Py.Raise e => (Py.Raise e, (self, training_history))
  | Py.Return _ =>
      match fit with
      | Py.Raise e => (Py.Raise e, (self, training_history))
      | Py.Return _ =>
          let training_record :=
            {| timestamp := now;
               dataset_path := dataset_path;
               training_config := model_config;
               training_params := training_params;
               trained_model_version := model_version self |} in
          let training_history := training_history ++ [training_record] in
          match save_history with
          | Py.Raise e => (Py.Raise e, (self, training_history))
          | Py.Return _ =>
              let loaded := load_model create self in
              (loaded.1, (loaded.2, training_history))
          end
      end
  end.

End ModelManager.

(** ** feature_client.py *)

Module FeatureStoreClient.

(** The client as the engine sees it.  [get_company_features] answers
    [None] for the empty dict [{}] (the only falsy answer) and [Some f] for
    a feature record.  [hash] is the interpreter's [hash] on [str]. *)
Record t : Type := mk {
  get_company_features : string → Py.result (option CompanyFeatures.t);
  get_all_companies : Py.result (list string);
  get_batch_features : list string → Py.result (gmap string CompanyFeatures.t);
  hash : string → Z
}.

(** The company list [get_all_companies] answers while the feature store
    has no listing endpoint. *)
Definition mock_companies : list string :=
  [ "TechFlow AI"; "GreenStart Solutions"; "DataViz Pro";
    "CloudScale Systems"; "AI Innovations"; "FinTech Plus";
    "HealthTech Solutions"; "EduTech Platform"; "RetailBot";
    "LogiChain"; "CyberGuard"; "SmartCity Tech" ].

Record model_features : Type := mk_model_features {
  dense : list R;
  sparse : list Z;
  culture_vector : list R
}.

(** [while len(dense_features) < 13: dense_features.append(0.0)]. *)
Definition pad_to (n : nat) (l : list R) : list R :=
  l ++ replicate (n - length l) 0%R.

(** [_prepare_features_for_model]. *)
Definition _prepare_features_for_model (self : t) (features : CompanyFeatures.t)
  : model_features :=
  let traction :=
    default TractionMetrics.empty (CompanyFeatures.traction_metrics features) in
  let dense_features :=
    [ default 0 (CompanyFeatures.user_overlap_score features);
      default 0 (TractionMetrics.funding_amount traction) / 1000000;
      IZR (default 0%Z (TractionMetrics.employee_count traction)) / 1000;
      default 0 (TractionMetrics.growth_rate traction) / 100;
      default 0 (TractionMetrics.market_sentiment traction) ]%R in
  let dense_features := pad_to 13 dense_features in
  let company_id := default "" (CompanyFeatures.company_id features) in
  let company_hash := (hash self company_id `mod` 100000)%Z in
  {| dense := dense_features;
     sparse := company_hash :: replicate 25 0%Z;
     culture_vector :=
       default (replicate 128 0%R) (CompanyFeatures.culture_vector features) |}.

(** The client over HTTP, as [feature_client.py] implements it. *)
Module Http.

(** An answer of the feature store: its status code and what
    [response.json()] gives, which raises on a body that is not JSON. *)
Record response (A : Type) : Type := mk_response {
  status_code : Z;
  json : Py.result A
}.
Arguments mk_response {A} _ _.
Arguments status_code {A} _.
Arguments json {A} _.

(** The [httpx] client: the answer, or the transport error, of each
    request the feature client sends.  The body of a company request is a
    feature record or [{}] ([None]); the body of a batch request is read
    as [data.get("features", [])]. *)
Record client : Type := mk_client {
  post_company : string → Py.result (response (option CompanyFeatures.t));
  post_online : list string → Py.result (response (list CompanyFeatures.t));
  get_stats : Py.result (response ())
}.

Definition not_initialized {A} : Py.result A :=
  Py.Raise (Py.Exception "'NoneType' object has no attribute 'post'").

(** [get_company_features]: [{}] on a status other than 200 and on every
    exception. *)
Definition get_company_features (http_client : option client)
    (company_id : string) : option CompanyFeatures.t :=
  let body : Py.result (option CompanyFeatures.t) :=
    response ←
      match http_client with
      | Some http => post_company http company_id
      | None => not_initialized
      end;
    if decide (status_code response = 200%Z) then json response
    else Py.Return None in
  match body with
  | Py.Return features => features
  | Py.Raise _ => None
  end.

(** The loop of [get_batch_features] over the records of the answer. *)
Definition add_feature (features_map : gmap string CompanyFeatures.t)
    (feature : CompanyFeatures.t) : gmap string CompanyFeatures.t :=
  match CompanyFeatures.company_id feature with
  | Some company_id =>
      if decide (company_id ≠ "") then <[company_id := feature]> features_map
      else features_map
  | None => features_map
  end.

(** [get_batch_features]: [{}] on a status other than 200 and on every
    exception. *)
Definition get_batch_features (http_client : option client)
    (company_ids : list string) : gmap string CompanyFeatures.t :=
  let body : Py.result (gmap string CompanyFeatures.t) :=
    response ←
      match http_client with
      | Some http => post_online http company_ids
      | None => not_initialized
      end;
    if decide (status_code response = 200%Z) then
      data ← json response;
      Py.Return (foldl add_feature ∅ data)
    else Py.Return ∅ in
  match body with
  | Py.Return features_map => features_map
  | Py.Raise _ => ∅
  end.

(** [get_all_companies]. *)
Definition get_all_companies (http_client : option client) : list string :=
  let body : Py.result (list string) :=
    response ←
      match http_client with
      | Some http => get_stats http
      | None => not_initialized
      end;
    if decide (status_code response = 200%Z) then Py.Return mock_companies
    else Py.Return [] in
  match body with
  | Py.Return companies => companies
  | Py.Raise _ => []
  end.

(** [FeatureStoreClient] with its HTTP client, as the engine uses it. *)
Definition make (http_client : option client) (hash : string → Z) : t :=
  {| FeatureStoreClient.get_company_features :=
       λ company_id, Py.Return (get_company_features http_client company_id);
     FeatureStoreClient.get_all_companies :=
       Py.Return (get_all_companies http_client);
     FeatureStoreClient.get_batch_features :=
       λ company_ids, Py.Return (get_batch_features http_client company_ids);
     FeatureStoreClient.hash := hash |}.

End Http.

End FeatureStoreClient.

(** ** inference_engine.py *)

Module Recommendation.

Record compatibility_factors_t : Type := mk_factors {
  funding_stage_alignment : R;
  company_size_alignment : R;
  growth_trajectory_alignment : R;
  market_sentiment_alignment : R
}.

Record reasoning_t : Type := mk_reasoning {
  compatibility_factors : compatibility_factors_t;
  timing_score : R;
  behavioral_alignment : R
}.

Record metadata_t : Type := mk_metadata {
  query_company : string;
  timestamp : string
}.

Record t : Type := mk {
  company_id : string;
  company_name : string;
  match_score : R;
  confidence : R;
  reasoning : reasoning_t;
  metadata : metadata_t
}.

End Recommendation.

Module PartnerInferenceEngine.
Local Open Scope R_scope.

Record t : Type := mk {
  model_manager : ModelManager.t;
  feature_client : FeatureStoreClient.t;
  config : Config.t
}.

(** A value of a [filters] dict. *)
Inductive any : Type :=
  | ANone
  | ABool (b : bool)
  | AInt (z : Z)
  | AFloat (r : R)
  | AStr (s : string).

(** [if filters:] holds for a dict that is neither [None] nor empty. *)
Definition truthy (filters : option (gmap string any)) : bool :=
  match filters with
  | Some d => bool_decide (d ≠ ∅)
  | None => false
  end.

(** [try: body except Exception: return fallback]. *)
Definition try_except {A} (body : Py.result A) (fallback : A) : A :=
  match body with
  | Py.Return a => a
  | Py.Raise _ => fallback
  end.

(** [features.get("culture_vector", [0.0] * 128)]. *)
Definition get_culture_vector (features : CompanyFeatures.t) : list R :=
  default (replicate 128 0) (CompanyFeatures.culture_vector features).

(** [features.get("traction_metrics", {})]. *)
Definition get_traction (features : CompanyFeatures.t) : TractionMetrics.t :=
  default TractionMetrics.empty (CompanyFeatures.traction_metrics features).

(** [_calculate_match_score]: the loaded model, or else the cosine
    similarity of the culture vectors. *)
Definition _calculate_match_score (self : t)
    (query_features candidate_features : CompanyFeatures.t) : R :=
  try_except
    (if ModelManager.model_loaded (model_manager self) then
       let query_model_features :=
         FeatureStoreClient._prepare_features_for_model
           (feature_client self) query_features in
       let candidate_model_features :=
         FeatureStoreClient._prepare_features_for_model
           (feature_client self) candidate_features in
       let combined_features :=
         {| ModelManager.dense :=
              FeatureStoreClient.dense query_model_features
              ++ FeatureStoreClient.dense candidate_model_features;
            ModelManager.sparse_a :=
              FeatureStoreClient.sparse query_model_features;
            ModelManager.sparse_b :=
              FeatureStoreClient.sparse candidate_model_features |} in
       ModelManager.predict (model_manager self) combined_features
     else
       let query_vector := get_culture_vector query_features in
       let candidate_vector := get_culture_vector candidate_features in
       if decide (Np.norm query_vector = 0 ∨ Np.norm candidate_vector = 0)
       then Py.Return 0
       else
         similarity ← Np.cosine_similarity query_vector candidate_vector;
         Py.Return (Py.max 0 (Py.min 1 similarity)))
    0.

(** [_calculate_compatibility_factors].  No operation of the body raises
    on a feature record (every divisor is at least 1), so the handler that
    answers four zeros is not reached. *)
Definition _calculate_compatibility_factors
    (query_features candidate_features : CompanyFeatures.t)
  : Recommendation.compatibility_factors_t :=
  let query_traction := get_traction query_features in
  let candidate_traction := get_traction candidate_features in
  let query_funding :=
    default 0 (TractionMetrics.funding_amount query_traction) in
  let candidate_funding :=
    default 0 (TractionMetrics.funding_amount candidate_traction) in
  let funding_ratio :=
    Py.min query_funding candidate_funding
    / Py.max3 query_funding candidate_funding 1 in
  let funding_compatibility := funding_ratio * 0.8 + 0.2 in
  let query_employees :=
    default 0%Z (TractionMetrics.employee_count query_traction) in
  let candidate_employees :=
    default 0%Z (TractionMetrics.employee_count candidate_traction) in
  let employee_ratio :=
    IZR (query_employees `min` candidate_employees)
    / IZR ((query_employees `max` candidate_employees) `max` 1) in
  let employee_compatibility := employee_ratio * 0.7 + 0.3 in
  let query_growth :=
    default 0 (TractionMetrics.growth_rate query_traction) in
  let candidate_growth :=
    default 0 (TractionMetrics.growth_rate candidate_traction) in
  let growth_diff := Py.abs (query_growth - candidate_growth) / 100 in
  let growth_compatibility := Py.max 0 (1 - growth_diff) in
  let query_sentiment :=
    default 0 (TractionMetrics.market_sentiment query_traction) in
  let candidate_sentiment :=
    default 0 (TractionMetrics.market_sentiment candidate_traction) in
  let sentiment_diff := Py.abs (query_sentiment - candidate_sentiment) in
  let sentiment_compatibility := Py.max 0 (1 - sentiment_diff) in
  {| Recommendation.funding_stage_alignment := funding_compatibility;
     Recommendation.company_size_alignment := employee_compatibility;
     Recommendation.growth_trajectory_alignment := growth_compatibility;
     Recommendation.market_sentiment_alignment := sentiment_compatibility |}.

(** [_calculate_timing_score]. *)
Definition _calculate_timing_score (candidate_features : CompanyFeatures.t)
  : R :=
  let traction := get_traction candidate_features in
  let sentiment_score :=
    (default 0 (TractionMetrics.market_sentiment traction) + 1) / 2 in
  let growth_rate := default 0 (TractionMetrics.growth_rate traction) in
  let growth_score := Py.min 1 (Py.max 0 (growth_rate / 50)) in
  sentiment_score * 0.6 + growth_score * 0.4.

(** [_calculate_behavioral_alignment]. *)
Definition _calculate_behavioral_alignment
    (query_features candidate_features : CompanyFeatures.t) : R :=
  try_except
    (let query_vector := get_culture_vector query_features in
     let candidate_vector := get_culture_vector candidate_features in
     if decide (Np.norm query_vector = 0 ∨ Np.norm candidate_vector = 0)
     then Py.Return 0.5
     else
       similarity ← Np.cosine_similarity query_vector candidate_vector;
       Py.Return ((similarity + 1) / 2))
    0.5.

(** [_apply_filters]. *)
Definition _apply_filters (candidate_companies : list string)
    (filters : gmap string any) : list string :=
  candidate_companies.

(** One turn of the loop over the candidates: [None] is [continue].
    [now] is what [datetime.utcnow().isoformat()] answers in this turn.
    The scoring functions absorb their own exceptions, so the handler of
    the loop body is not reached. *)
Definition score_candidate (self : t) (company_id : string)
    (query_features : CompanyFeatures.t)
    (candidate_features : gmap string CompanyFeatures.t)
    (now : string) (candidate_id : string) : option Recommendation.t :=
  match candidate_features !! candidate_id with
  | None => None
  | Some features =>
      let match_score :=
        _calculate_match_score self query_features features in
      if decide (match_score >= Config.similarity_threshold (config self))
      then
        let compatibility_factors :=
          _calculate_compatibility_factors query_features features in
        let timing_score := _calculate_timing_score features in
        let behavioral_alignment :=
          _calculate_behavioral_alignment query_features features in
        Some
          {| Recommendation.company_id := candidate_id;
             Recommendation.company_name := candidate_id;
             Recommendation.match_score := match_score;
             Recommendation.confidence := Py.min (match_score * 1.1) 1;
             Recommendation.reasoning :=
               {| Recommendation.compatibility_factors :=
                    compatibility_factors;
                  Recommendation.timing_score := timing_score;
                  Recommendation.behavioral_alignment :=
                    behavioral_alignment |};
             Recommendation.metadata :=
               {| Recommendation.query_company := company_id;
                  Recommendation.timestamp := now |} |}
      else None
  end.

(** [for candidate_id in candidate_companies: ...], from turn [i] on;
    [clock i] is the reading of the wall clock in turn [i]. *)
Fixpoint score_candidates (self : t) (company_id : string)
    (query_features : CompanyFeatures.t)
    (candidate_features : gmap string CompanyFeatures.t)
    (clock : nat → string) (i : nat) (candidate_companies : list string)
  : list Recommendation.t :=
  match candidate_companies with
  | [] => []
  | candidate_id :: rest =>
      let recommendations :=
        score_candidates self company_id query_features candidate_features
          clock (S i) rest in
      match score_candidate self company_id query_features
              candidate_features (clock i) candidate_id with
      | Some recommendation => recommendation :: recommendations
      | None => recommendations
      end
  end.

(** [get_recommendations].  An exception of the feature client leaves the
    function ([except: raise]). *)
Definition get_recommendations (self : t) (clock : nat → string)
    (company_id : string) (top_k : Z) (filters : option (gmap string any))
    (include_scores : bool) : Py.result (list Recommendation.t) :=
  query_features ←
    FeatureStoreClient.get_company_features (feature_client self) company_id;
  match query_features with
  | None => Py.Return []
  | Some query_features =>
      candidate_companies ←
        FeatureStoreClient.get_all_companies (feature_client self);
      let candidate_companies :=
        filter (λ c, c ≠ company_id) candidate_companies in
      let candidate_companies :=
        if truthy filters
        then _apply_filters candidate_companies (default ∅ filters)
        else candidate_companies in
      candidate_features ←
        FeatureStoreClient.get_batch_features (feature_client self)
          candidate_companies;
      let recommendations :=
        score_candidates self company_id query_features candidate_features
          clock 0 candidate_companies in
      let recommendations :=
        Py.sort_desc Recommendation.match_score recommendations in
      Py.Return (Py.slice_to top_k recommendations)
  end.

(** [process_company], the task of one company id in a batch; [i] is the
    position of the task and [clock i] the clock readings of its run. *)
Definition process_company (self : t) (clock : nat → nat → string)
    (top_k : Z) (i : nat) (company_id : string)
  : string * list Recommendation.t :=
  match get_recommendations self (clock i) company_id top_k None true with
  | Py.Return recommendations => (company_id, recommendations)
  | Py.Raise _ => (company_id, [])
  end.

(** [get_batch_recommendations].  The tasks share nothing they write, so
    their interleaving under the semaphore does not show in what they
    return; [asyncio.gather] answers in the order of [company_ids], and no
    answer is an exception, as [process_company] absorbs them. *)
Definition get_batch_recommendations (self : t) (clock : nat → nat → string)
    (company_ids : list string) (top_k : Z)
  : Py.result (gmap string (list Recommendation.t)) :=
  let results := imap (process_company self clock top_k) company_ids in
  Py.Return
    (foldl (λ batch_results result, <[result.1 := result.2]> batch_results)
       ∅ results).

(** [f"batch_recommendations:{company_id}"]. *)
Definition cache_key (company_id : string) : string :=
  "batch_recommendations:" +:+ company_id.

(** [process_batch_recommendations].  Redis is a map from a key to its
    time to live in seconds and its value; [json_dumps] is
    [json.dumps(_, default=str)].  The keys written are pairwise
    different, so the order of the writes does not show in the store. *)
Definition process_batch_recommendations (self : t)
    (json_dumps : list Recommendation.t → string)
    (clock : nat → nat → string) (redis_client : gmap string (Z * string))
    (company_ids : list string) (top_k : Z) : gmap string (Z * string) :=
  match get_batch_recommendations self clock company_ids top_k with
  | Py.Return results =>
      map_fold
        (λ company_id recommendations redis,
           <[cache_key company_id :=
               (Config.cache_ttl_seconds (config self),
                json_dumps recommendations)]> redis)
        redis_client results
  | Py.Raise _ => redis_client
  end.

(** One entry of the list [_analyze_feature_contributions] builds. *)
Record contribution_t : Type := mk_contribution {
  feature : string;
  value : R;
  contribution : R;
  description : string
}.

(** [_analyze_feature_contributions].  Nothing in the body raises on a
    feature record, so the handler that answers [[]] is not reached. *)
Definition _analyze_feature_contributions
    (query_features partner_features : CompanyFeatures.t) (top_features : Z)
  : list contribution_t :=
  let overlap_score :=
    default 0 (CompanyFeatures.user_overlap_score query_features) in
  let query_funding :=
    default 0 (TractionMetrics.funding_amount (get_traction query_features)) in
  let partner_funding :=
    default 0
      (TractionMetrics.funding_amount (get_traction partner_features)) in
  let funding_alignment :=
    Py.min query_funding partner_funding
    / Py.max3 query_funding partner_funding 1 in
  let contributions :=
    [ {| feature := "user_overlap_score";
         value := overlap_score;
         contribution := overlap_score * 0.3;
         description := "Overlap in user bases" |};
      {| feature := "funding_alignment";
         value := funding_alignment;
         contribution := funding_alignment * 0.25;
         description := "Similarity in funding stages" |} ] in
  let contributions := Py.sort_desc contribution contributions in
  Py.slice_to top_features contributions.








End PartnerInferenceEngine.

(** ** main.py *)

Module Api.

(** What an endpoint answers: its body, or the [HTTPException] it raises. *)
Inductive answer (A : Type) : Type :=
  | Body (body : A)
  | HTTPException (status_code : Z) (detail : string).
Arguments Body {A} body.
Arguments HTTPException {A} status_code detail.

Record RecommendationRequest : Type := mk_request {
  company_id : string;
  top_k : Z;
  filters : option (gmap string PartnerInferenceEngine.any);
  include_scores : bool
}.

Record RecommendationResponse : Type := mk_response {
  query_company_id : string;
  recommendations : list Recommendation.t;
  model_version : string;
  inference_time_ms : R;
  total_candidates : nat
}.

(** [recommend_partners], the endpoint [/recommend]; [inference_time] is
    the time the clock measures for the call. *)
Definition recommend_partners (engine : PartnerInferenceEngine.t)
    (gpu : bool) (clock : nat → string) (inference_time : R)
    (request : RecommendationRequest) : answer RecommendationResponse :=
  match
    PartnerInferenceEngine.get_recommendations engine clock
      (company_id request) (top_k request) (filters request)
      (include_scores request)
  with
  | Py.Return recommendations =>
      let model_status :=
        ModelManager.get_model_status gpu
          (PartnerInferenceEngine.model_manager engine) in
      Body
        {| query_company_id := company_id request;
           recommendations := recommendations;
           model_version := ModelManager.version model_status;
           inference_time_ms := inference_time;
           total_candidates := length recommendations |}
  | Py.Raise (Py.Exception message) =>
      HTTPException 500 ("Recommendation failed: " +:+ message)
  end.

(** A task handed to [BackgroundTasks]: a call of
    [process_batch_recommendations]. *)
Record background_task : Type := mk_task {
  task_company_ids : list string;
  task_top_k : Z
}.

Inductive batch_response : Type :=
  | Accepted (message estimated_completion : string)
  | Completed (results : gmap string (list Recommendation.t))
      (processed_count : nat).

(** [batch_recommend_partners], the endpoint [/batch-recommend]:
    the answer and the tasks queued.  [background_tasks] is [None] when
    the caller has no task queue. *)
Definition batch_recommend_partners (engine : PartnerInferenceEngine.t)
    (clock : nat → nat → string) (company_ids : list string) (top_k : Z)
    (background_tasks : option (list background_task))
  : answer batch_response * option (list background_task) :=
  let synchronous :=
    match
      PartnerInferenceEngine.get_batch_recommendations engine clock
        company_ids top_k
    with
    | Py.Return batch_results =>
        Body (Completed batch_results (size batch_results))
    | Py.Raise (Py.Exception message) =>
        HTTPException 500 ("Batch recommendation failed: " +:+ message)
    end in
  if decide (100 < length company_ids)%nat then
    match background_tasks with
    | Some tasks =>
        (Body
           (Accepted
              ("Batch processing started for "
               +:+ pretty (length company_ids) +:+ " companies")
              "5-10 minutes"),
         Some (tasks ++ [mk_task company_ids top_k]))
    | None => (synchronous, background_tasks)
    end
  else (synchronous, background_tasks).

End Api.

(** ** Concrete inputs used by the examples below *)

Module Fixtures.

Definition default_config : Config.t := Config.from_environ Config.no_environ.

(** A feature record that has only a culture vector. *)
Definition features_with_vector (v : list R) : CompanyFeatures.t :=
  {| CompanyFeatures.company_id := None;
     CompanyFeatures.user_overlap_score := None;
     CompanyFeatures.traction_metrics := None;
     CompanyFeatures.culture_vector := Some v |}.

(** A feature store that knows no company. *)
Definition empty_client : FeatureStoreClient.t :=
  {| FeatureStoreClient.get_company_features := λ _, Py.Return None;
     FeatureStoreClient.get_all_companies := Py.Return [];
     FeatureStoreClient.get_batch_features := λ _, Py.Return ∅;
     FeatureStoreClient.hash := λ _, 0%Z |}.

(** The engine of a service that has found no model on disk. *)
Definition unloaded_engine : PartnerInferenceEngine.t :=
  {| PartnerInferenceEngine.model_manager := ModelManager.init default_config;
     PartnerInferenceEngine.feature_client := empty_client;
     PartnerInferenceEngine.config := default_config |}.

(** A session whose model answers the same score for every pair. *)
Definition constant_session (score : R) : ModelManager.InferenceSession :=
  {| ModelManager.session_predict := λ _, Py.Return score |}.

(** The manager of a service that has loaded such a model at start-up. *)
Definition loaded_manager : ModelManager.t :=
  (ModelManager.load_model (Py.Return (constant_session 0.5))
     (ModelManager.init default_config)).2.

Definition empty_input : ModelManager.ModelInput :=
  {| ModelManager.dense := []; ModelManager.sparse_a := [];
     ModelManager.sparse_b := [] |}.

(** A feature store that lists the mock companies and has the same
    feature record for every company it is asked about. *)
Definition uniform_client : FeatureStoreClient.t :=
  let features := features_with_vector [1%R; 0%R] in
  {| FeatureStoreClient.get_company_features :=
       λ _, Py.Return (Some features);
     FeatureStoreClient.get_all_companies :=
       Py.Return FeatureStoreClient.mock_companies;
     FeatureStoreClient.get_batch_features :=
       λ company_ids,
         Py.Return (gset_to_gmap features (list_to_set company_ids));
     FeatureStoreClient.hash := λ _, 0%Z |}.

(** The engine of a service whose model scores every pair 0.5. *)
Definition uniform_engine : PartnerInferenceEngine.t :=
  {| PartnerInferenceEngine.model_manager := loaded_manager;
     PartnerInferenceEngine.feature_client := uniform_client;
     PartnerInferenceEngine.config := default_config |}.

(** A clock that has stopped. *)
Definition midnight : nat → string := λ _, "2024-01-01T00:00:00".

(** The uniform feature store, except that the lookup of "RetailBot"
    raises. *)
Definition flaky_client : FeatureStoreClient.t :=
  {| FeatureStoreClient.get_company_features :=
       λ company_id,
         if decide (company_id = "RetailBot")
         then Py.Raise (Py.Exception "feature store unavailable")
         else FeatureStoreClient.get_company_features uniform_client
                company_id;
     FeatureStoreClient.get_all_companies :=
       FeatureStoreClient.get_all_companies uniform_client;
     FeatureStoreClient.get_batch_features :=
       FeatureStoreClient.get_batch_features uniform_client;
     FeatureStoreClient.hash := FeatureStoreClient.hash uniform_client |}.

Definition flaky_engine : PartnerInferenceEngine.t :=
  {| PartnerInferenceEngine.model_manager := loaded_manager;
     PartnerInferenceEngine.feature_client := flaky_client;
     PartnerInferenceEngine.config := default_config |}.

(** A stand-in for [json.dumps] that writes the company ids only. *)
Definition dump_ids (recommendations : list Recommendation.t) : string :=
  "[" +:+ String.concat ", " (Recommendation.company_id <$> recommendations)
  +:+ "]".

(** A session whose model fails on every input. *)
Definition failing_session : ModelManager.InferenceSession :=
  {| ModelManager.session_predict :=
       λ _, Py.Raise (Py.Exception "inference failed") |}.

(** The uniform engine with the failing session loaded. *)
Definition failing_engine : PartnerInferenceEngine.t :=
  {| PartnerInferenceEngine.model_manager :=
       (ModelManager.load_model (Py.Return failing_session)
          (ModelManager.init default_config)).2;
     PartnerInferenceEngine.feature_client := uniform_client;
     PartnerInferenceEngine.config := default_config |}.

(** A feature record that carries a company id. *)
Definition named_features (company_id : string) : CompanyFeatures.t :=
  {| CompanyFeatures.company_id := Some company_id;
     CompanyFeatures.user_overlap_score := None;
     CompanyFeatures.traction_metrics := None;
     CompanyFeatures.culture_vector := Some [1%R; 0%R] |}.

(** A feature store that answers every request with status 200 and a
    record for every company asked about. *)
Definition healthy_http : FeatureStoreClient.Http.client :=
  {| FeatureStoreClient.Http.post_company :=
       λ company_id,
         Py.Return
           (FeatureStoreClient.Http.mk_response 200
              (Py.Return (Some (named_features company_id))));
     FeatureStoreClient.Http.post_online :=
       λ company_ids,
         Py.Return
           (FeatureStoreClient.Http.mk_response 200
              (Py.Return (named_features <$> company_ids)));
     FeatureStoreClient.Http.get_stats :=
       Py.Return (FeatureStoreClient.Http.mk_response 200 (Py.Return ())) |}.

End Fixtures.

(** * Properties *)

(** ** Python's [min] and [max] on reals *)

Lemma py_min_Rmin (a b : R) : Py.min a b = Rmin a b.
Proof.
  unfold Py.min, Rmin. case_decide; destruct (Rle_dec a b); lra.
Qed.

Lemma py_max_Rmax (a b : R) : Py.max a b = Rmax a b.
Proof.
  unfold Py.max, Rmax. case_decide; destruct (Rle_dec a b); lra.
Qed.

Lemma py_max3_Rmax (a b c : R) : Py.max3 a b c = Rmax (Rmax a b) c.
Proof. unfold Py.max3. by rewrite !py_max_Rmax. Qed.

Lemma clamp_unit_interval (x : R) : (0 <= Py.max 0 (Py.min 1 x) <= 1)%R.
Proof.
  rewrite py_max_Rmax, py_min_Rmin.
  unfold Rmax, Rmin. repeat destruct (Rle_dec _ _); lra.
Qed.

(** ** Cosine similarity *)

Section cosine.
Local Open Scope R_scope.

Lemma dot_scaled (a b : list R) (k1 k2 : R) :
  k1 ≠ 0 → k2 ≠ 0 →
  Np.dot ((λ x, x / k1) <$> a) ((λ x, x / k2) <$> b) = Np.dot a b / (k1 * k2).
Proof.
  intros Hk1 Hk2. unfold Np.dot.
  revert b. induction a as [|x a IH]; intros [|y b]; simpl;
    try (field; done).
  rewrite IH. field. done.
Qed.

Lemma cosine_similarity_cos_angle (a b : list R) :
  Np.norm a ≠ 0 → Np.norm b ≠ 0 → length a = length b →
  Np.cosine_similarity a b = Py.Return (Np.cos_angle a b).
Proof.
  intros Ha Hb Hlen. unfold Np.cosine_similarity, Np.normalize, Np.cos_angle.
  rewrite decide_True by done.
  rewrite !decide_False by done.
  by rewrite dot_scaled.
Qed.

Lemma norm_nil : Np.norm [] = 0.
Proof. unfold Np.norm, Np.dot. simpl. apply sqrt_0. Qed.

Lemma norm_zeros (n : nat) : Np.norm (replicate n 0) = 0.
Proof.
  unfold Np.norm.
  assert (Np.dot (replicate n 0) (replicate n 0) = 0) as ->.
  { unfold Np.dot. induction n as [|n IH]; simpl; [done|]. rewrite IH. lra. }
  apply sqrt_0.
Qed.

End cosine.

(** ** The similarity fallback of [_calculate_match_score] *)

Section fallback.
Local Open Scope R_scope.

Lemma fallback_unfold (self : PartnerInferenceEngine.t)
    (q c : CompanyFeatures.t) :
  ModelManager.model_loaded (PartnerInferenceEngine.model_manager self)
    = false →
  PartnerInferenceEngine._calculate_match_score self q c =
    let a := PartnerInferenceEngine.get_culture_vector q in
    let b := PartnerInferenceEngine.get_culture_vector c in
    if decide (Np.norm a = 0 ∨ Np.norm b = 0) then 0
    else if decide (length a = length b)
         then Py.max 0 (Py.min 1 (Np.dot (Np.normalize a) (Np.normalize b)))
         else 0.
Proof.
  intros Hunloaded. unfold PartnerInferenceEngine._calculate_match_score.
  rewrite Hunloaded. simpl. case_decide; [done|].
  unfold Np.cosine_similarity. by case_decide.
Qed.

(** C1 (as amended).  With no model loaded, the match score of two culture
    vectors of the same length is their cosine clamped to [0,1] when both
    norms are nonzero, it is 0 when a norm is zero, and it lies in [0,1]
    in all cases. *)
Theorem fallback_match_score (self : PartnerInferenceEngine.t)
    (q c : CompanyFeatures.t) :
  ModelManager.model_loaded (PartnerInferenceEngine.model_manager self)
    = false →
  let a := PartnerInferenceEngine.get_culture_vector q in
  let b := PartnerInferenceEngine.get_culture_vector c in
  let score := PartnerInferenceEngine._calculate_match_score self q c in
  (Np.norm a ≠ 0 → Np.norm b ≠ 0 → length a = length b →
     score = Rmax 0 (Rmin 1 (Np.cos_angle a b)))
  ∧ (Np.norm a = 0 ∨ Np.norm b = 0 → score = 0)
  ∧ 0 <= score <= 1.
Proof.
  intros Hunloaded a b score. subst score.
  rewrite (fallback_unfold _ _ _ Hunloaded). fold a b. cbv zeta.
  split; [|split].
  - intros Ha Hb Hlen.
    rewrite decide_False by tauto. rewrite decide_True by done.
    rewrite py_max_Rmax, py_min_Rmin.
    pose proof (cosine_similarity_cos_angle a b Ha Hb Hlen) as Hcos.
    unfold Np.cosine_similarity in Hcos. rewrite decide_True in Hcos by done.
    by injection Hcos as ->.
  - intros Hzero. by rewrite decide_True.
  - repeat case_decide; try lra. apply clamp_unit_interval.
Qed.

Lemma norm_unit_x : Np.norm [1; 0] = 1.
Proof.
  unfold Np.norm, Np.dot. simpl.
  replace (1 * 1 + (0 * 0 + 0)) with 1 by lra. apply sqrt_1.
Qed.

Lemma norm_unit_y : Np.norm [0; 1] = 1.
Proof.
  unfold Np.norm, Np.dot. simpl.
  replace (0 * 0 + (1 * 1 + 0)) with 1 by lra. apply sqrt_1.
Qed.

Lemma fallback_match_score_witness :
  let q := Fixtures.features_with_vector [1; 0] in
  let c := Fixtures.features_with_vector [0; 1] in
  let score :=
    PartnerInferenceEngine._calculate_match_score Fixtures.unloaded_engine
      q c in
  score = Rmax 0 (Rmin 1 (Np.cos_angle [1; 0] [0; 1])) ∧ 0 <= score <= 1.
Proof.
  intros q c score.
  destruct (fallback_match_score Fixtures.unloaded_engine q c eq_refl)
    as (Hcos & _ & Hbound).
  split; [|exact Hbound].
  apply Hcos.
  - change (Np.norm [1; 0] ≠ 0). rewrite norm_unit_x. lra.
  - change (Np.norm [0; 1] ≠ 0). rewrite norm_unit_y. lra.
  - reflexivity.
Defined.

(** C1 as the claim states it fails twice: a zero vector scores 0, not
    0.5, and two orthogonal unit vectors (cosine 0) score 0, not
    (0 + 1) / 2. *)
Lemma fallback_match_score_counterexample :
  let engine := Fixtures.unloaded_engine in
  let zero := Fixtures.features_with_vector [0; 0] in
  let x := Fixtures.features_with_vector [1; 0] in
  let y := Fixtures.features_with_vector [0; 1] in
  Np.norm [0; 0] = 0
  ∧ PartnerInferenceEngine._calculate_match_score engine zero x ≠ 0.5
  ∧ Np.norm [1; 0] ≠ 0 ∧ Np.norm [0; 1] ≠ 0
  ∧ PartnerInferenceEngine._calculate_match_score engine x y
      ≠ (Np.cos_angle [1; 0] [0; 1] + 1) / 2.
Proof.
  intros engine zero x y.
  assert (Np.norm [0; 0] = 0) as Hzero by apply (norm_zeros 2).
  split; [done|]. split.
  - rewrite fallback_unfold by done.
    change (PartnerInferenceEngine.get_culture_vector zero) with [0; 0].
    cbv zeta. rewrite decide_True by (by left). lra.
  - rewrite norm_unit_x, norm_unit_y. repeat split; try lra.
    rewrite fallback_unfold by done.
    change (PartnerInferenceEngine.get_culture_vector x) with [1; 0].
    change (PartnerInferenceEngine.get_culture_vector y) with [0; 1].
    cbv zeta. rewrite decide_False by (rewrite norm_unit_x, norm_unit_y; lra).
    rewrite decide_True by done.
    unfold Np.normalize, Np.cos_angle. rewrite norm_unit_x, norm_unit_y.
    rewrite decide_False by lra.
    unfold Np.dot. simpl.
    replace (1 / 1 * (0 / 1) + (0 / 1 * (1 / 1) + 0)) with 0 by lra.
    replace ((1 * 0 + (0 * 1 + 0)) / (1 * 1)) with 0 by lra.
    rewrite py_max_Rmax, py_min_Rmin.
    unfold Rmax, Rmin. repeat destruct (Rle_dec _ _); lra.
Qed.

End fallback.

(** ** Reloading the model *)

(** C2 (as amended).  When the new artifact fails to load, [reload_model]
    fails with the load's exception and no model is active afterwards: the
    previous session is dropped, the status reports [loaded = false] with
    the version unchanged, and [predict] raises. *)
Theorem reload_failure_unloads (self : ModelManager.t) (e : Py.exn)
    (gpu : bool) :
  let outcome := ModelManager.reload_model (Py.Raise e) self in
  let before := ModelManager.get_model_status gpu self in
  let after := ModelManager.get_model_status gpu outcome.2 in
  outcome.1 = Py.Raise e
  ∧ ModelManager.model outcome.2 = None
  ∧ ModelManager.loaded after = false
  ∧ ModelManager.version after = ModelManager.version before
  ∧ ∀ features,
      ModelManager.predict outcome.2 features
      = Py.Raise (Py.Exception "Model not loaded").
Proof.
  unfold ModelManager.reload_model, ModelManager.load_model.
  destruct self as [[session|] is_loaded v]; simpl; repeat split.
Qed.

(** C2 as the claim states it fails: a manager that serves a model and
    whose reload fails reports [loaded = false] afterwards, and a
    prediction that succeeded before the reload raises after it. *)
Lemma reload_failure_counterexample :
  let self := Fixtures.loaded_manager in
  let outcome :=
    ModelManager.reload_model (Py.Raise (Py.Exception "invalid artifact"))
      self in
  ModelManager.loaded (ModelManager.get_model_status true self) = true
  ∧ outcome.1 = Py.Raise (Py.Exception "invalid artifact")
  ∧ ModelManager.loaded (ModelManager.get_model_status true outcome.2) ≠ true
  ∧ ModelManager.predict self Fixtures.empty_input = Py.Return 0.5%R
  ∧ ModelManager.predict outcome.2 Fixtures.empty_input
      = Py.Raise (Py.Exception "Model not loaded").
Proof. simpl. repeat split. discriminate. Qed.

(** ** The compatibility analyzer *)

Section compatibility.
Local Open Scope R_scope.

(** C8.  The funding-stage and the company-size alignment are the ratio
    formulas of the claim, and both are symmetric in the two records. *)
Theorem compatibility_alignment_symmetric (A B : CompanyFeatures.t) :
  let funding X :=
    default 0 (TractionMetrics.funding_amount
                 (PartnerInferenceEngine.get_traction X)) in
  let employees X :=
    default 0%Z (TractionMetrics.employee_count
                   (PartnerInferenceEngine.get_traction X)) in
  let ab := PartnerInferenceEngine._calculate_compatibility_factors A B in
  let ba := PartnerInferenceEngine._calculate_compatibility_factors B A in
  Recommendation.funding_stage_alignment ab
    = Rmin (funding A) (funding B) / Rmax (Rmax (funding A) (funding B)) 1
      * 0.8 + 0.2
  ∧ Recommendation.company_size_alignment ab
    = IZR (employees A `min` employees B)
      / IZR ((employees A `max` employees B) `max` 1) * 0.7 + 0.3
  ∧ Recommendation.funding_stage_alignment ab
    = Recommendation.funding_stage_alignment ba
  ∧ Recommendation.company_size_alignment ab
    = Recommendation.company_size_alignment ba.
Proof.
  intros funding employees ab ba. subst ab ba funding employees.
  unfold PartnerInferenceEngine._calculate_compatibility_factors. simpl.
  rewrite !py_min_Rmin, !py_max3_Rmax.
  repeat split.
  - rewrite (Rmin_comm (default 0 _)). by rewrite (Rmax_comm (default 0 _)).
  - rewrite (Z.min_comm (default 0%Z _)). by rewrite (Z.max_comm (default 0%Z _)).
Qed.

End compatibility.

(** ** The stable descending sort and the slice *)

Section sort_facts.
Context {A : Type} (key : A → R).
Local Open Scope R_scope.

Lemma insert_desc_perm (x : A) (l : list A) :
  Py.insert_desc key x l ≡ₚ x :: l.
Proof.
  induction l as [|y l IH]; simpl; [done|].
  case_decide; [|done]. rewrite IH. apply Permutation_swap.
Qed.

Lemma sort_desc_perm (l : list A) : Py.sort_desc key l ≡ₚ l.
Proof.
  induction l as [|x l IH]; simpl; [done|].
  rewrite insert_desc_perm. by rewrite IH.
Qed.

Lemma insert_desc_sorted (x : A) (l : list A) :
  StronglySorted (Py.desc key) l → StronglySorted (Py.desc key) (Py.insert_desc key x l).
Proof.
  induction 1 as [|y l Hsorted IH Hall]; simpl.
  - repeat constructor.
  - case_decide as Hlt.
    + constructor; [done|]. rewrite insert_desc_perm.
      constructor; [unfold Py.desc; lra|done].
    + constructor; [by constructor|].
      constructor; [unfold Py.desc; lra|].
      eapply Forall_impl; [exact Hall|]. unfold Py.desc. intros z Hz. lra.
Qed.

Lemma sort_desc_sorted (l : list A) : StronglySorted (Py.desc key) (Py.sort_desc key l).
Proof.
  induction l as [|x l IH]; simpl; [constructor|].
  by apply insert_desc_sorted.
Qed.

Lemma insert_desc_stable (s : R) (x : A) (l : list A) :
  filter (λ y, key y = s) (Py.insert_desc key x l)
  = filter (λ y, key y = s) (x :: l).
Proof.
  induction l as [|y l IH]; simpl; [done|].
  case_decide as Hlt; [|done].
  rewrite (filter_cons _ y), IH, !filter_cons.
  repeat case_decide; (done || lra).
Qed.

Lemma sort_desc_stable (s : R) (l : list A) :
  filter (λ y, key y = s) (Py.sort_desc key l) = filter (λ y, key y = s) l.
Proof.
  induction l as [|x l IH]; simpl; [done|].
  by rewrite insert_desc_stable, !filter_cons, IH.
Qed.

Lemma sort_desc_elem_of (x : A) (l : list A) :
  x ∈ Py.sort_desc key l ↔ x ∈ l.
Proof. by rewrite sort_desc_perm. Qed.

End sort_facts.

Lemma StronglySorted_sublist {A} (R : relation A) (l1 l2 : list A) :
  l1 `sublist_of` l2 → StronglySorted R l2 → StronglySorted R l1.
Proof.
  induction 1 as [|x l1 l2 Hsub IH|x l1 l2 Hsub IH]; intros Hsorted.
  - constructor.
  - apply StronglySorted_inv in Hsorted as [Hsorted Hall].
    constructor; [by apply IH|].
    apply Forall_forall. intros y Hy.
    eapply Forall_forall in Hall; [done|]. by eapply elem_of_sublist.
  - apply StronglySorted_inv in Hsorted as [Hsorted _]. by apply IH.
Qed.

Lemma filter_sublist_mono {A} (P : A → Prop) `{!∀ x, Decision (P x)}
    (l1 l2 : list A) :
  l1 `sublist_of` l2 → filter P l1 `sublist_of` filter P l2.
Proof.
  induction 1 as [|x l1 l2 Hsub IH|x l1 l2 Hsub IH]; [done|..];
    rewrite ?filter_cons; case_decide;
    try (by apply sublist_skip); try (by apply sublist_cons); done.
Qed.

Lemma slice_to_sublist {A} (k : Z) (l : list A) :
  Py.slice_to k l `sublist_of` l.
Proof. unfold Py.slice_to. case_decide; apply sublist_take. Qed.

Lemma slice_to_length {A} (k : Z) (l : list A) :
  (0 ≤ k)%Z → (Z.of_nat (length (Py.slice_to k l)) ≤ k)%Z.
Proof.
  intros Hk. unfold Py.slice_to. rewrite decide_True by done.
  rewrite length_take. lia.
Qed.

(** ** The recommendation engine *)

Section engine.
Local Open Scope R_scope.
Context (self : PartnerInferenceEngine.t).

Lemma apply_filters_id (candidate_companies : list string)
    (filters : gmap string PartnerInferenceEngine.any) :
  PartnerInferenceEngine._apply_filters candidate_companies filters
  = candidate_companies.
Proof. reflexivity. Qed.

(** What a returned list is made of. *)
Lemma get_recommendations_inv (clock : nat → string) (company_id : string)
    (top_k : Z) (filters : option (gmap string PartnerInferenceEngine.any))
    (include_scores : bool) (out : list Recommendation.t) :
  PartnerInferenceEngine.get_recommendations self clock company_id top_k
    filters include_scores = Py.Return out →
  (FeatureStoreClient.get_company_features
     (PartnerInferenceEngine.feature_client self) company_id = Py.Return None
   ∧ out = [])
  ∨ ∃ query_features all_companies candidate_features,
      FeatureStoreClient.get_company_features
        (PartnerInferenceEngine.feature_client self) company_id
        = Py.Return (Some query_features)
      ∧ FeatureStoreClient.get_all_companies
          (PartnerInferenceEngine.feature_client self)
          = Py.Return all_companies
      ∧ out =
          Py.slice_to top_k
            (Py.sort_desc Recommendation.match_score
               (PartnerInferenceEngine.score_candidates self company_id
                  query_features candidate_features clock 0
                  (filter (λ c, c ≠ company_id) all_companies))).
Proof.
  unfold PartnerInferenceEngine.get_recommendations.
  destruct (FeatureStoreClient.get_company_features _ _)
    as [[query_features|]|e]; simpl; [|naive_solver..].
  destruct (FeatureStoreClient.get_all_companies _) as [all_companies|e];
    simpl; [|done].
  rewrite apply_filters_id.
  replace (if PartnerInferenceEngine.truthy filters then _ else _)
    with (filter (λ c, c ≠ company_id) all_companies) by (by case_match).
  destruct (FeatureStoreClient.get_batch_features _ _)
    as [candidate_features|e]; simpl; [|done].
  intros [= <-]. right. by eexists _, _, _.
Qed.

Lemma score_candidate_inv (company_id : string)
    (query_features : CompanyFeatures.t)
    (candidate_features : gmap string CompanyFeatures.t)
    (now candidate_id : string) (r : Recommendation.t) :
  PartnerInferenceEngine.score_candidate self company_id query_features
    candidate_features now candidate_id = Some r →
  Recommendation.company_id r = candidate_id
  ∧ Recommendation.confidence r
    = Py.min (Recommendation.match_score r * 1.1) 1.
Proof.
  unfold PartnerInferenceEngine.score_candidate.
  destruct (candidate_features !! candidate_id) as [features|]; [|done].
  case_decide; [|done]. by intros [= <-].
Qed.

Lemma score_candidates_elem_of (company_id : string)
    (query_features : CompanyFeatures.t)
    (candidate_features : gmap string CompanyFeatures.t)
    (clock : nat → string) (i : nat) (candidates : list string)
    (r : Recommendation.t) :
  r ∈ PartnerInferenceEngine.score_candidates self company_id query_features
        candidate_features clock i candidates →
  Recommendation.company_id r ∈ candidates
  ∧ Recommendation.confidence r
    = Py.min (Recommendation.match_score r * 1.1) 1.
Proof.
  revert i. induction candidates as [|candidate_id rest IH]; intros i; simpl.
  - by intros ?%elem_of_nil.
  - destruct (PartnerInferenceEngine.score_candidate _ _ _ _ _ _)
      as [r'|] eqn:Hscore.
    + intros [->|Hin]%elem_of_cons.
      * apply score_candidate_inv in Hscore as [<- ?]. split; [left|done].
      * apply IH in Hin as [? ?]. split; [by right|done].
    + intros Hin. apply IH in Hin as [? ?]. split; [by right|done].
Qed.

Lemma score_candidates_ids (company_id : string)
    (query_features : CompanyFeatures.t)
    (candidate_features : gmap string CompanyFeatures.t)
    (clock : nat → string) (i : nat) (candidates : list string) :
  Recommendation.company_id
    <$> PartnerInferenceEngine.score_candidates self company_id
          query_features candidate_features clock i candidates
  `sublist_of` candidates.
Proof.
  revert i. induction candidates as [|candidate_id rest IH]; intros i; simpl.
  - done.
  - destruct (PartnerInferenceEngine.score_candidate _ _ _ _ _ _)
      as [r'|] eqn:Hscore; simpl.
    + apply score_candidate_inv in Hscore as [-> _].
      by apply sublist_skip.
    + by apply sublist_cons.
Qed.

End engine.

(** *** The engine on the uniform feature store *)

Section uniform.
Local Open Scope R_scope.

Lemma sort_desc_all_equal {A} (key : A → R) (s : R) (l : list A) :
  Forall (λ x, key x = s) l → Py.sort_desc key l = l.
Proof.
  induction 1 as [|x l Hx Hall IH]; simpl; [done|].
  rewrite IH. destruct Hall as [|y l Hy _]; simpl; [done|].
  rewrite decide_False by lra. done.
Qed.

Lemma slice_to_of_nat {A} (k : nat) (l : list A) :
  Py.slice_to (Z.of_nat k) l = take k l.
Proof.
  unfold Py.slice_to. rewrite decide_True by lia. by rewrite Nat2Z.id.
Qed.

(** Candidates that all have features and all score [s], at or above the
    threshold, are all recommended, in their order. *)
Lemma score_candidates_all (self : PartnerInferenceEngine.t)
    (company_id : string) (query_features : CompanyFeatures.t)
    (candidate_features : gmap string CompanyFeatures.t)
    (clock : nat → string) (s : R) (i : nat) (candidates : list string) :
  s >= Config.similarity_threshold (PartnerInferenceEngine.config self) →
  (∀ c, c ∈ candidates →
     ∃ features, candidate_features !! c = Some features
       ∧ PartnerInferenceEngine._calculate_match_score self query_features
           features = s) →
  let recommendations :=
    PartnerInferenceEngine.score_candidates self company_id query_features
      candidate_features clock i candidates in
  Recommendation.company_id <$> recommendations = candidates
  ∧ Forall (λ r, Recommendation.match_score r = s) recommendations.
Proof.
  intros Hs. revert i.
  induction candidates as [|c rest IH]; intros i Hall; simpl; [done|].
  destruct (Hall c) as (features & Hlookup & Hscore); [left|].
  unfold PartnerInferenceEngine.score_candidate.
  rewrite Hlookup, Hscore. rewrite decide_True by done.
  destruct (IH (S i)) as [Hids Hscores].
  { intros c' Hc'. apply Hall. by right. }
  split; [by rewrite fmap_cons, Hids|by constructor].
Qed.

Lemma uniform_engine_scored (clock : nat → string) (q : string) (top_k : Z) :
  ∃ recommendations,
    PartnerInferenceEngine.get_recommendations Fixtures.uniform_engine clock
      q top_k None true = Py.Return (Py.slice_to top_k recommendations)
    ∧ Recommendation.company_id <$> recommendations
      = filter (λ c, c ≠ q) FeatureStoreClient.mock_companies
    ∧ Forall (λ r, Recommendation.match_score r = 0.5) recommendations.
Proof.
  eexists. split; [reflexivity|].
  match goal with
  | |- context [PartnerInferenceEngine.score_candidates ?e ?c ?qf ?cf ?cl ?i ?l] =>
      destruct (score_candidates_all e c qf cf cl 0.5 i l) as [Hids Hscores]
  end.
  - simpl. lra.
  - intros c Hc. eexists. split; [|reflexivity].
    apply lookup_gset_to_gmap_Some. split; [|done].
    by apply elem_of_list_to_set.
  - by rewrite (sort_desc_all_equal _ 0.5).
Qed.

Lemma uniform_engine_recommendations (clock : nat → string) (q : string)
    (k : nat) :
  ∃ out,
    PartnerInferenceEngine.get_recommendations Fixtures.uniform_engine clock
      q (Z.of_nat k) None true = Py.Return out
    ∧ Recommendation.company_id <$> out
      = take k (filter (λ c, c ≠ q) FeatureStoreClient.mock_companies)
    ∧ Forall (λ r, Recommendation.match_score r = 0.5) out.
Proof.
  destruct (uniform_engine_scored clock q (Z.of_nat k))
    as (recommendations & Hout & Hids & Hscores).
  eexists. split; [exact Hout|]. rewrite slice_to_of_nat.
  split; [by rewrite fmap_take, Hids|by apply Forall_take].
Qed.

End uniform.

(** *** What [get_recommendations] returns *)

Section recommendations.
Local Open Scope R_scope.

(** C3 (as amended).  A query whose feature lookup answers no record gets
    the empty list as a normal result; nothing is raised. *)
Theorem unknown_company_returns_empty (self : PartnerInferenceEngine.t)
    (clock : nat → string) (company_id : string) (top_k : Z)
    (filters : option (gmap string PartnerInferenceEngine.any))
    (include_scores : bool) :
  FeatureStoreClient.get_company_features
    (PartnerInferenceEngine.feature_client self) company_id
    = Py.Return None →
  PartnerInferenceEngine.get_recommendations self clock company_id top_k
    filters include_scores = Py.Return [].
Proof.
  intros Hnone. unfold PartnerInferenceEngine.get_recommendations.
  by rewrite Hnone.
Qed.

Lemma unknown_company_returns_empty_witness :
  PartnerInferenceEngine.get_recommendations Fixtures.unloaded_engine
    Fixtures.midnight "Acme" 10 None true = Py.Return [].
Proof.
  apply (unknown_company_returns_empty Fixtures.unloaded_engine). reflexivity.
Defined.

(** C3 as the claim states it fails: the feature store knows no record of
    "Acme", and the call returns instead of raising. *)
Lemma unknown_company_counterexample :
  FeatureStoreClient.get_company_features
    (PartnerInferenceEngine.feature_client Fixtures.unloaded_engine) "Acme"
    = Py.Return None
  ∧ ¬ ∃ e,
      PartnerInferenceEngine.get_recommendations Fixtures.unloaded_engine
        Fixtures.midnight "Acme" 10 None true = Py.Raise e.
Proof. split; [reflexivity|]. intros [e He]. discriminate He. Qed.

(** C4 (as amended).  The returned list has at most [top_k] entries when
    [top_k] is not negative, it is sorted by descending match score, and
    recommendations of equal score keep the order in which the feature
    store enumerated their companies. *)
Theorem recommendations_ranked (self : PartnerInferenceEngine.t)
    (clock : nat → string) (company_id : string) (top_k : Z)
    (filters : option (gmap string PartnerInferenceEngine.any))
    (include_scores : bool) (out : list Recommendation.t) :
  PartnerInferenceEngine.get_recommendations self clock company_id top_k
    filters include_scores = Py.Return out →
  ((0 ≤ top_k)%Z → (Z.of_nat (length out) ≤ top_k)%Z)
  ∧ StronglySorted (Py.desc Recommendation.match_score) out
  ∧ ∀ all_companies s,
      FeatureStoreClient.get_all_companies
        (PartnerInferenceEngine.feature_client self)
        = Py.Return all_companies →
      Recommendation.company_id
        <$> filter (λ r, Recommendation.match_score r = s) out
      `sublist_of` all_companies.
Proof.
  intros [[_ ->]|(qf & all & cf & _ & Hall & ->)]%get_recommendations_inv.
  { split; [simpl; lia|]. split; [constructor|]. intros. apply sublist_nil_l. }
  split; [apply slice_to_length|]. split.
  - eapply StronglySorted_sublist; [apply slice_to_sublist|].
    apply sort_desc_sorted.
  - intros all' s Hall'. rewrite Hall in Hall'. injection Hall' as <-.
    etrans; [|apply (sublist_filter (λ c, c ≠ company_id))].
    etrans; [|apply (score_candidates_ids self company_id qf cf clock 0)].
    apply fmap_sublist.
    etrans; [apply filter_sublist_mono, slice_to_sublist|].
    rewrite sort_desc_stable. apply sublist_filter.
Qed.

Lemma recommendations_ranked_witness :
  ∃ out,
    PartnerInferenceEngine.get_recommendations Fixtures.uniform_engine
      Fixtures.midnight "TechFlow AI" 5 None true = Py.Return out
    ∧ (Z.of_nat (length out) ≤ 5)%Z
    ∧ StronglySorted (Py.desc Recommendation.match_score) out
    ∧ Recommendation.company_id
        <$> filter (λ r, Recommendation.match_score r = 0.5) out
      `sublist_of` FeatureStoreClient.mock_companies.
Proof.
  eexists. split; [reflexivity|].
  destruct (recommendations_ranked Fixtures.uniform_engine Fixtures.midnight
              "TechFlow AI" 5 None true _ eq_refl) as (Hlen & Hsorted & Hties).
  split; [apply Hlen; lia|]. split; [exact Hsorted|].
  apply Hties. reflexivity.
Defined.

(** C4 as the claim states it fails.  Five recommendations of one score
    come in the order of the feature store's company list, in which
    "AI Innovations" stands below a greater id and above a greater id:
    the ids of the tie neither ascend nor descend.  And for [top_k = -1]
    the slice drops the last of eleven recommendations and returns ten. *)
Lemma recommendations_ranked_counterexample :
  (∃ out,
     PartnerInferenceEngine.get_recommendations Fixtures.uniform_engine
       Fixtures.midnight "TechFlow AI" 5 None true = Py.Return out
     ∧ Recommendation.company_id <$> out
       = [ "GreenStart Solutions"; "DataViz Pro"; "CloudScale Systems";
           "AI Innovations"; "FinTech Plus" ]
     ∧ Forall (λ r, Recommendation.match_score r = 0.5) out
     ∧ String.ltb "AI Innovations" "CloudScale Systems" = true
     ∧ String.ltb "AI Innovations" "FinTech Plus" = true)
  ∧ (∃ out,
       PartnerInferenceEngine.get_recommendations Fixtures.uniform_engine
         Fixtures.midnight "TechFlow AI" (-1) None true = Py.Return out
       ∧ length out = 10%nat
       ∧ ¬ (Z.of_nat (length out) ≤ -1)%Z).
Proof.
  split.
  - destruct (uniform_engine_recommendations Fixtures.midnight
                "TechFlow AI" 5) as (out & Hout & Hids & Hscores).
    exists out. by repeat split.
  - destruct (uniform_engine_scored Fixtures.midnight "TechFlow AI" (-1))
      as (recommendations & Hout & Hids & _).
    eexists. split; [exact Hout|].
    assert (length recommendations = 11%nat) as Hlen.
    { by rewrite <- (length_fmap Recommendation.company_id), Hids. }
    unfold Py.slice_to. rewrite decide_False by lia.
    rewrite length_take, Hlen. split; [done|]. simpl. lia.
Qed.

(** C7.  No recommendation names the query company. *)
Theorem recommendations_exclude_query (self : PartnerInferenceEngine.t)
    (clock : nat → string) (company_id : string) (top_k : Z)
    (filters : option (gmap string PartnerInferenceEngine.any))
    (include_scores : bool) (out : list Recommendation.t) :
  PartnerInferenceEngine.get_recommendations self clock company_id top_k
    filters include_scores = Py.Return out →
  Forall (λ r, Recommendation.company_id r ≠ company_id) out.
Proof.
  intros [[_ ->]|(qf & all & cf & _ & _ & ->)]%get_recommendations_inv;
    [constructor|].
  apply Forall_forall. intros r Hr.
  eapply elem_of_sublist in Hr; [|apply slice_to_sublist].
  apply sort_desc_elem_of, score_candidates_elem_of in Hr as [Hr _].
  by apply list_elem_of_filter in Hr as [? _].
Qed.

Lemma recommendations_exclude_query_witness :
  ∃ out,
    PartnerInferenceEngine.get_recommendations Fixtures.uniform_engine
      Fixtures.midnight "TechFlow AI" 5 None true = Py.Return out
    ∧ length out = 5%nat
    ∧ Forall (λ r, Recommendation.company_id r ≠ "TechFlow AI") out.
Proof.
  destruct (uniform_engine_recommendations Fixtures.midnight "TechFlow AI" 5)
    as (out & Hout & Hids & _).
  exists out. split; [exact Hout|]. split.
  - by rewrite <- (length_fmap Recommendation.company_id), Hids.
  - exact (recommendations_exclude_query _ _ _ _ _ _ _ Hout).
Defined.

(** C9.  The confidence of a recommendation is [min(match_score * 1.1, 1)],
    so it is at most 1. *)
Theorem recommendations_confidence (self : PartnerInferenceEngine.t)
    (clock : nat → string) (company_id : string) (top_k : Z)
    (filters : option (gmap string PartnerInferenceEngine.any))
    (include_scores : bool) (out : list Recommendation.t) :
  PartnerInferenceEngine.get_recommendations self clock company_id top_k
    filters include_scores = Py.Return out →
  Forall (λ r, Recommendation.confidence r
               = Rmin (Recommendation.match_score r * 1.1) 1
             ∧ Recommendation.confidence r <= 1) out.
Proof.
  intros [[_ ->]|(qf & all & cf & _ & _ & ->)]%get_recommendations_inv;
    [constructor|].
  apply Forall_forall. intros r Hr.
  eapply elem_of_sublist in Hr; [|apply slice_to_sublist].
  apply sort_desc_elem_of, score_candidates_elem_of in Hr as [_ ->].
  rewrite py_min_Rmin. split; [done|]. apply Rmin_r.
Qed.

Lemma recommendations_confidence_witness :
  ∃ out,
    PartnerInferenceEngine.get_recommendations Fixtures.uniform_engine
      Fixtures.midnight "DataViz Pro" 3 None true = Py.Return out
    ∧ length out = 3%nat
    ∧ Forall (λ r, Recommendation.confidence r
                   = Rmin (Recommendation.match_score r * 1.1) 1
                 ∧ Recommendation.confidence r <= 1) out.
Proof.
  destruct (uniform_engine_recommendations Fixtures.midnight "DataViz Pro" 3)
    as (out & Hout & Hids & _).
  exists out. split; [exact Hout|]. split.
  - by rewrite <- (length_fmap Recommendation.company_id), Hids.
  - exact (recommendations_confidence _ _ _ _ _ _ _ Hout).
Defined.

(** C10.  [_apply_filters] returns its candidates for every [filters], so
    [get_recommendations] answers the same for any two values of
    [filters], [None] included. *)
Theorem recommendations_ignore_filters (self : PartnerInferenceEngine.t)
    (clock : nat → string) (company_id : string) (top_k : Z)
    (filters1 filters2 : option (gmap string PartnerInferenceEngine.any))
    (include_scores : bool) :
  (∀ candidate_companies filters,
     PartnerInferenceEngine._apply_filters candidate_companies filters
     = candidate_companies)
  ∧ PartnerInferenceEngine.get_recommendations self clock company_id top_k
      filters1 include_scores
    = PartnerInferenceEngine.get_recommendations self clock company_id top_k
        filters2 include_scores.
Proof.
  split; [done|]. unfold PartnerInferenceEngine.get_recommendations.
  destruct (FeatureStoreClient.get_company_features _ _)
    as [[query_features|]|e]; simpl; [|done..].
  destruct (FeatureStoreClient.get_all_companies _) as [all_companies|e];
    simpl; [|done].
  rewrite !apply_filters_id.
  by destruct (PartnerInferenceEngine.truthy filters1),
    (PartnerInferenceEngine.truthy filters2).
Qed.

End recommendations.

(** ** Batches *)

Section batch.

(** The loop that collects the answers of the tasks into the dict. *)
Lemma collect_lookup_other {V} (results : list (string * V))
    (batch_results : gmap string V) (k : string) :
  k ∉ results.*1 →
  foldl (λ batch_results result, <[result.1 := result.2]> batch_results)
    batch_results results !! k = batch_results !! k.
Proof.
  revert batch_results.
  induction results as [|[k' v'] results IH]; intros batch_results Hk;
    simpl in *; [done|].
  apply not_elem_of_cons in Hk as [Hne Hk].
  rewrite IH by done. by rewrite lookup_insert_ne.
Qed.

Lemma collect_lookup {V} (results : list (string * V))
    (batch_results : gmap string V) (k : string) (v : V) :
  NoDup results.*1 → (k, v) ∈ results →
  foldl (λ batch_results result, <[result.1 := result.2]> batch_results)
    batch_results results !! k = Some v.
Proof.
  revert batch_results.
  induction results as [|[k' v'] results IH]; intros batch_results Hnodup Hin;
    simpl in *; [by apply elem_of_nil in Hin|].
  apply NoDup_cons in Hnodup as [Hfresh Hnodup].
  apply elem_of_cons in Hin as [[= -> ->]|Hin].
  - rewrite collect_lookup_other by done. apply lookup_insert_eq.
  - by apply IH.
Qed.

Lemma collect_dom {V} (results : list (string * V))
    (batch_results : gmap string V) :
  dom (foldl (λ batch_results result, <[result.1 := result.2]> batch_results)
         batch_results results)
  = list_to_set results.*1 ∪ dom batch_results.
Proof.
  revert batch_results.
  induction results as [|[k' v'] results IH]; intros batch_results; simpl.
  - by rewrite (left_id_L ∅ (∪)).
  - rewrite IH, dom_insert_L, (assoc_L (∪)).
    by rewrite (comm_L (∪) (list_to_set _) {[k']}).
Qed.

Lemma process_company_eq (self : PartnerInferenceEngine.t)
    (clock : nat → nat → string) (top_k : Z) (i : nat) (company_id : string) :
  PartnerInferenceEngine.process_company self clock top_k i company_id
  = (company_id,
     PartnerInferenceEngine.try_except
       (PartnerInferenceEngine.get_recommendations self (clock i) company_id
          top_k None true) []).
Proof.
  unfold PartnerInferenceEngine.process_company.
  by destruct (PartnerInferenceEngine.get_recommendations _ _ _ _ _ _).
Qed.

Lemma imap_keys {A B} (f : nat → A → A * B) (l : list A) :
  (∀ i x, (f i x).1 = x) → (imap f l).*1 = l.
Proof.
  revert f. induction l as [|x l IH]; intros f Hf; simpl; [done|].
  rewrite Hf. f_equal. apply IH. intros i y. apply Hf.
Qed.

(** C6.  For pairwise different company ids the batch map has one entry
    for every id: the list [get_recommendations] returns for it, and the
    empty list when [get_recommendations] raises for it. *)
Theorem batch_one_entry_per_query (self : PartnerInferenceEngine.t)
    (clock : nat → nat → string) (company_ids : list string) (top_k : Z) :
  NoDup company_ids →
  ∃ batch_results,
    PartnerInferenceEngine.get_batch_recommendations self clock company_ids
      top_k = Py.Return batch_results
    ∧ size batch_results = length company_ids
    ∧ ∀ i company_id,
        company_ids !! i = Some company_id →
        batch_results !! company_id
        = Some
            match
              PartnerInferenceEngine.get_recommendations self (clock i)
                company_id top_k None true
            with
            | Py.Return recommendations => recommendations
            | Py.Raise _ => []
            end.
Proof.
  intros Hnodup. eexists. split; [reflexivity|].
  assert ((imap (PartnerInferenceEngine.process_company self clock top_k)
             company_ids).*1 = company_ids) as Hkeys.
  { apply imap_keys. intros i x. by rewrite process_company_eq. }
  split.
  - rewrite <- size_dom, collect_dom, Hkeys, dom_empty_L, (right_id_L ∅ (∪)).
    by apply size_list_to_set.
  - intros i company_id Hi.
    apply collect_lookup; [by rewrite Hkeys|].
    apply (elem_of_lookup_imap_2
             (PartnerInferenceEngine.process_company self clock top_k)) in Hi.
    by rewrite process_company_eq in Hi.
Qed.

Lemma batch_one_entry_per_query_witness :
  ∃ batch_results,
    PartnerInferenceEngine.get_batch_recommendations Fixtures.flaky_engine
      (λ _, Fixtures.midnight) ["TechFlow AI"; "RetailBot"; "LogiChain"] 5
      = Py.Return batch_results
    ∧ size batch_results = 3%nat
    ∧ batch_results !! "RetailBot" = Some [].
Proof.
  destruct (batch_one_entry_per_query Fixtures.flaky_engine
              (λ _, Fixtures.midnight)
              ["TechFlow AI"; "RetailBot"; "LogiChain"] 5)
    as (batch_results & Hbatch & Hsize & Hentries).
  { apply (bool_decide_unpack (NoDup _)). vm_compute. exact I. }
  exists batch_results. split; [exact Hbatch|]. split; [exact Hsize|].
  exact (Hentries 1%nat "RetailBot" eq_refl).
Defined.

Lemma cache_key_inj : Inj (=) (=) PartnerInferenceEngine.cache_key.
Proof. apply String.app_inj. Qed.

(** C5 (as amended).  When a background batch completes, the list of every
    query in the batch map is in the cache under the key
    "batch_recommendations:{queryId}", serialised, with the configured time
    to live, which is 3600 seconds when the environment sets none. *)
Theorem batch_results_cached (self : PartnerInferenceEngine.t)
    (json_dumps : list Recommendation.t → string)
    (clock : nat → nat → string) (redis_client : gmap string (Z * string))
    (company_ids : list string) (top_k : Z) :
  let redis :=
    PartnerInferenceEngine.process_batch_recommendations self json_dumps
      clock redis_client company_ids top_k in
  Config.cache_ttl_seconds (Config.from_environ Config.no_environ) = 3600%Z
  ∧ ∀ batch_results company_id recommendations,
      PartnerInferenceEngine.get_batch_recommendations self clock
        company_ids top_k = Py.Return batch_results →
      batch_results !! company_id = Some recommendations →
      redis !! ("batch_recommendations:" +:+ company_id)
      = Some (Config.cache_ttl_seconds (PartnerInferenceEngine.config self),
              json_dumps recommendations).
Proof.
  intros redis. split; [reflexivity|].
  intros batch_results company_id recommendations Hbatch. subst redis.
  unfold PartnerInferenceEngine.process_batch_recommendations.
  rewrite Hbatch. clear Hbatch. revert company_id recommendations.
  change (λ (k : string) (v : list Recommendation.t) redis, ?f k v redis)
    with f.
  apply (map_fold_weak_ind
           (λ redis (m : gmap string (list Recommendation.t)),
              ∀ company_id recommendations,
                m !! company_id = Some recommendations →
                redis !! PartnerInferenceEngine.cache_key company_id
                = Some (Config.cache_ttl_seconds
                          (PartnerInferenceEngine.config self),
                        json_dumps recommendations))).
  - intros company_id recommendations Hin. by rewrite lookup_empty in Hin.
  - intros i x m redis Hfresh IH company_id recommendations Hin.
    destruct (decide (company_id = i)) as [->|Hne].
    + rewrite lookup_insert_eq in Hin. injection Hin as ->.
      apply lookup_insert_eq.
    + rewrite lookup_insert_ne in Hin by done.
      rewrite lookup_insert_ne; [by apply IH|].
      intros Heq. by apply cache_key_inj in Heq.
Qed.

Lemma batch_results_cached_witness :
  let redis :=
    PartnerInferenceEngine.process_batch_recommendations
      Fixtures.unloaded_engine Fixtures.dump_ids (λ _, Fixtures.midnight) ∅
      ["Acme"; "Initech"] 10 in
  redis !! "batch_recommendations:Initech" = Some (3600%Z, "[]").
Proof.
  intros redis.
  destruct (batch_results_cached Fixtures.unloaded_engine Fixtures.dump_ids
              (λ _, Fixtures.midnight) ∅ ["Acme"; "Initech"] 10)
    as [_ Hcached].
  apply (Hcached _ "Initech" [] eq_refl). vm_compute. reflexivity.
Defined.

(** C5 as the claim states it fails: after the batch of "Acme" the cache
    has no key "batch:Acme"; the list is under
    "batch_recommendations:Acme". *)
Lemma batch_cache_key_counterexample :
  let redis :=
    PartnerInferenceEngine.process_batch_recommendations
      Fixtures.unloaded_engine Fixtures.dump_ids (λ _, Fixtures.midnight) ∅
      ["Acme"] 10 in
  redis !! "batch:Acme" = None
  ∧ redis !! "batch_recommendations:Acme" = Some (3600%Z, "[]").
Proof. vm_compute. split; reflexivity. Qed.

End batch.

(** * Further properties of the service *)

(** ** Bounds of the compatibility analyzer *)

Section analyzer_bounds.
Local Open Scope R_scope.

Lemma ratio_unit_interval (n d : R) : 0 <= n <= d → 0 < d → 0 <= n / d <= 1.
Proof.
  intros [Hn Hnd] Hd. split.
  - apply Rmult_le_pos; [done|]. left. by apply Rinv_0_lt_compat.
  - apply (Rmult_le_reg_r d); [done|]. field_simplify; lra.
Qed.



(** X2.  For funding amounts and employee counts that are not negative, the
    funding-stage alignment lies in [0.2,1] and the company-size
    alignment in [0.3,1]. *)
Theorem funding_size_alignment_bounds (A B : CompanyFeatures.t) :
  let funding X :=
    default 0 (TractionMetrics.funding_amount
                 (PartnerInferenceEngine.get_traction X)) in
  let employees X :=
    default 0%Z (TractionMetrics.employee_count
                   (PartnerInferenceEngine.get_traction X)) in
  let ab := PartnerInferenceEngine._calculate_compatibility_factors A B in
  0 <= funding A → 0 <= funding B →
  (0 ≤ employees A)%Z → (0 ≤ employees B)%Z →
  0.2 <= Recommendation.funding_stage_alignment ab <= 1
  ∧ 0.3 <= Recommendation.company_size_alignment ab <= 1.
Proof.
  intros funding employees ab HfA HfB HeA HeB. subst ab.
  unfold PartnerInferenceEngine._calculate_compatibility_factors. simpl.
  fold (funding A) (funding B) (employees A) (employees B).
  rewrite py_min_Rmin, py_max3_Rmax.
  assert (0 <= Rmin (funding A) (funding B)
               / Rmax (Rmax (funding A) (funding B)) 1 <= 1) as Hf.
  { apply ratio_unit_interval.
    - unfold Rmin, Rmax. repeat destruct (Rle_dec _ _); lra.
    - unfold Rmax. repeat destruct (Rle_dec _ _); lra. }
  assert (0 <= IZR (employees A `min` employees B)
               / IZR ((employees A `max` employees B) `max` 1) <= 1) as He.
  { apply ratio_unit_interval.
    - split; [apply IZR_le; lia|apply IZR_le; lia].
    - apply IZR_lt. lia. }
  lra.
Qed.

Lemma funding_size_alignment_bounds_witness :
  let A := Fixtures.features_with_vector [1; 0] in
  let ab := PartnerInferenceEngine._calculate_compatibility_factors A A in
  0.2 <= Recommendation.funding_stage_alignment ab <= 1
  ∧ 0.3 <= Recommendation.company_size_alignment ab <= 1.
Proof.
  intros A ab.
  apply (funding_size_alignment_bounds A A); simpl; (lra || lia).
Defined.

(** X3.  A company without funding data (or with funding 0) has the floor
    funding alignment 0.2 with every company whose funding is not
    negative, and a company without an employee count has the floor size
    alignment 0.3 with every company whose count is not negative. *)
Theorem alignment_floor_without_data (A B : CompanyFeatures.t) :
  let funding X :=
    default 0 (TractionMetrics.funding_amount
                 (PartnerInferenceEngine.get_traction X)) in
  let employees X :=
    default 0%Z (TractionMetrics.employee_count
                   (PartnerInferenceEngine.get_traction X)) in
  let ab := PartnerInferenceEngine._calculate_compatibility_factors A B in
  (funding A = 0 → 0 <= funding B →
     Recommendation.funding_stage_alignment ab = 0.2)
  ∧ (employees A = 0%Z → (0 ≤ employees B)%Z →
     Recommendation.company_size_alignment ab = 0.3).
Proof.
  intros funding employees ab. subst ab.
  unfold PartnerInferenceEngine._calculate_compatibility_factors. simpl.
  fold (funding A) (funding B) (employees A) (employees B).
  split.
  - intros -> HfB. rewrite py_min_Rmin, py_max3_Rmax.
    replace (Rmin 0 (funding B)) with 0
      by (unfold Rmin; destruct (Rle_dec _ _); lra).
    unfold Rdiv. lra.
  - intros -> HeB. rewrite Z.min_l by done. unfold Rdiv. lra.
Qed.

Lemma alignment_floor_without_data_witness :
  let A := Fixtures.features_with_vector [1; 0] in
  let ab := PartnerInferenceEngine._calculate_compatibility_factors A A in
  Recommendation.funding_stage_alignment ab = 0.2
  ∧ Recommendation.company_size_alignment ab = 0.3.
Proof.
  intros A ab.
  destruct (alignment_floor_without_data A A) as [Hf He].
  split; [apply Hf; simpl; lra|apply He; simpl; lia].
Defined.

(** X4.  For a market sentiment in [-1,1] the timing score lies in [0,1]; the
    growth part is clamped for every growth rate. *)
Theorem timing_score_bounds (features : CompanyFeatures.t) :
  let sentiment :=
    default 0 (TractionMetrics.market_sentiment
                 (PartnerInferenceEngine.get_traction features)) in
  -1 <= sentiment <= 1 →
  0 <= PartnerInferenceEngine._calculate_timing_score features <= 1.
Proof.
  intros sentiment Hs.
  unfold PartnerInferenceEngine._calculate_timing_score.
  fold sentiment. rewrite py_min_Rmin, py_max_Rmax.
  generalize (default 0 (TractionMetrics.growth_rate
                           (PartnerInferenceEngine.get_traction features))).
  intros g. unfold Rmin, Rmax. repeat destruct (Rle_dec _ _); lra.
Qed.

Lemma timing_score_bounds_witness :
  0 <= PartnerInferenceEngine._calculate_timing_score
         (Fixtures.features_with_vector [1; 0]) <= 1.
Proof. apply timing_score_bounds. simpl. lra. Defined.

End analyzer_bounds.

(** ** Culture vectors: the cosine and the scores built on it *)

Section culture.
Local Open Scope R_scope.

Lemma dot_comm (a b : list R) : Np.dot a b = Np.dot b a.
Proof.
  unfold Np.dot. revert b.
  induction a as [|x a IH]; intros [|y b]; simpl; [done..|].
  rewrite IH. lra.
Qed.







Lemma behavioral_alignment_unfold (q c : CompanyFeatures.t) :
  PartnerInferenceEngine._calculate_behavioral_alignment q c =
    let a := PartnerInferenceEngine.get_culture_vector q in
    let b := PartnerInferenceEngine.get_culture_vector c in
    if decide (Np.norm a = 0 ∨ Np.norm b = 0) then 0.5
    else if decide (length a = length b)
         then (Np.cos_angle a b + 1) / 2
         else 0.5.
Proof.
  unfold PartnerInferenceEngine._calculate_behavioral_alignment.
  cbv zeta. case_decide as Hzero; [done|].
  case_decide as Hlen.
  - rewrite cosine_similarity_cos_angle by tauto. done.
  - unfold Np.cosine_similarity. by rewrite decide_False.
Qed.




(** X7.  A record without culture data (no vector, or a vector of norm 0) on
    either side gives the neutral behavioral alignment 0.5 and, with no
    model loaded, the match score 0; so do two vectors of different
    lengths. *)
Theorem culture_data_missing (self : PartnerInferenceEngine.t)
    (q c : CompanyFeatures.t) :
  let a := PartnerInferenceEngine.get_culture_vector q in
  let b := PartnerInferenceEngine.get_culture_vector c in
  (CompanyFeatures.culture_vector q = None → Np.norm a = 0)
  ∧ (Np.norm a = 0 ∨ Np.norm b = 0 ∨ length a ≠ length b →
     PartnerInferenceEngine._calculate_behavioral_alignment q c = 0.5
     ∧ (ModelManager.model_loaded (PartnerInferenceEngine.model_manager self)
          = false →
        PartnerInferenceEngine._calculate_match_score self q c = 0)).
Proof.
  intros a b. split.
  - intros Hnone. subst a. unfold PartnerInferenceEngine.get_culture_vector.
    rewrite Hnone. apply norm_zeros.
  - intros Hmissing. split.
    + rewrite behavioral_alignment_unfold. cbv zeta. fold a b.
      repeat case_decide; (done || tauto).
    + intros Hunloaded. rewrite fallback_unfold by done. cbv zeta. fold a b.
      repeat case_decide; (done || tauto).
Qed.

Lemma culture_data_missing_witness :
  let q :=
    {| CompanyFeatures.company_id := Some "Acme";
       CompanyFeatures.user_overlap_score := None;
       CompanyFeatures.traction_metrics := None;
       CompanyFeatures.culture_vector := None |} in
  let c := Fixtures.features_with_vector [1; 0] in
  PartnerInferenceEngine._calculate_behavioral_alignment q c = 0.5
  ∧ PartnerInferenceEngine._calculate_match_score Fixtures.unloaded_engine
      q c = 0.
Proof.
  intros q c.
  destruct (culture_data_missing Fixtures.unloaded_engine q c)
    as [Hnorm Hscores].
  destruct Hscores as [Hb Hm]; [left; by apply Hnorm|].
  split; [exact Hb|]. apply Hm. reflexivity.
Defined.

(** X8.  The behavioral alignment is symmetric, and so is the match score when
    no model is loaded. *)
Theorem culture_scores_symmetric (self : PartnerInferenceEngine.t)
    (q c : CompanyFeatures.t) :
  PartnerInferenceEngine._calculate_behavioral_alignment q c
  = PartnerInferenceEngine._calculate_behavioral_alignment c q
  ∧ (ModelManager.model_loaded (PartnerInferenceEngine.model_manager self)
       = false →
     PartnerInferenceEngine._calculate_match_score self q c
     = PartnerInferenceEngine._calculate_match_score self c q).
Proof.
  split.
  - rewrite !behavioral_alignment_unfold. cbv zeta.
    unfold Np.cos_angle.
    rewrite (dot_comm (PartnerInferenceEngine.get_culture_vector q)).
    rewrite (Rmult_comm (Np.norm (PartnerInferenceEngine.get_culture_vector q))).
    repeat case_decide; (done || tauto || congruence).
  - intros Hunloaded. rewrite !fallback_unfold by done. cbv zeta.
    rewrite (dot_comm (Np.normalize (PartnerInferenceEngine.get_culture_vector q))).
    repeat case_decide; (done || tauto || congruence).
Qed.

Lemma culture_scores_symmetric_witness :
  let x := Fixtures.features_with_vector [1; 0] in
  let y := Fixtures.features_with_vector [0; 1] in
  PartnerInferenceEngine._calculate_match_score Fixtures.unloaded_engine x y
  = PartnerInferenceEngine._calculate_match_score Fixtures.unloaded_engine
      y x.
Proof.
  intros x y.
  apply (culture_scores_symmetric Fixtures.unloaded_engine x y). reflexivity.
Defined.

End culture.

(** ** More about [get_recommendations] *)

Section recommendations_more.
Local Open Scope R_scope.

Lemma score_candidate_fields (self : PartnerInferenceEngine.t)
    (company_id : string)
    (query_features : CompanyFeatures.t)
    (candidate_features : gmap string CompanyFeatures.t)
    (now candidate_id : string) (r : Recommendation.t) :
  PartnerInferenceEngine.score_candidate self company_id query_features
    candidate_features now candidate_id = Some r →
  ∃ features,
    candidate_features !! candidate_id = Some features
    ∧ Recommendation.company_id r = candidate_id
    ∧ Recommendation.company_name r = candidate_id
    ∧ Recommendation.match_score r
      = PartnerInferenceEngine._calculate_match_score self query_features
          features
    ∧ Recommendation.match_score r
      >= Config.similarity_threshold (PartnerInferenceEngine.config self)
    ∧ Recommendation.query_company (Recommendation.metadata r) = company_id.
Proof.
  unfold PartnerInferenceEngine.score_candidate.
  destruct (candidate_features !! candidate_id) as [features|]; [|done].
  case_decide; [|done]. intros [= <-]. by exists features.
Qed.

Lemma score_candidates_fields (self : PartnerInferenceEngine.t)
    (company_id : string)
    (query_features : CompanyFeatures.t)
    (candidate_features : gmap string CompanyFeatures.t)
    (clock : nat → string) (i : nat) (candidates : list string)
    (r : Recommendation.t) :
  r ∈ PartnerInferenceEngine.score_candidates self company_id query_features
        candidate_features clock i candidates →
  ∃ candidate_id now,
    candidate_id ∈ candidates
    ∧ PartnerInferenceEngine.score_candidate self company_id query_features
        candidate_features now candidate_id = Some r.
Proof.
  revert i. induction candidates as [|candidate_id rest IH]; intros i; simpl.
  - by intros ?%elem_of_nil.
  - destruct (PartnerInferenceEngine.score_candidate _ _ _ _ _ _)
      as [r'|] eqn:Hscore.
    + intros [->|Hin]%elem_of_cons.
      * exists candidate_id, (clock i). split; [left|done].
      * apply IH in Hin as (c & now & Hc & Hr).
        exists c, now. split; [by right|done].
    + intros Hin. apply IH in Hin as (c & now & Hc & Hr).
      exists c, now. split; [by right|done].
Qed.

(** X9.  Every recommendation returned names a company of the feature store's
    listing, other than the query, carries that id also as its name,
    carries the query id in its metadata, and has a match score at or
    above the similarity threshold. *)
Theorem recommendations_well_formed (self : PartnerInferenceEngine.t)
    (clock : nat → string)
    (company_id : string) (top_k : Z)
    (filters : option (gmap string PartnerInferenceEngine.any))
    (include_scores : bool) (all_companies : list string)
    (out : list Recommendation.t) :
  PartnerInferenceEngine.get_recommendations self clock company_id top_k
    filters include_scores = Py.Return out →
  FeatureStoreClient.get_all_companies
    (PartnerInferenceEngine.feature_client self) = Py.Return all_companies →
  Forall
    (λ r, Recommendation.company_id r ∈ all_companies
          ∧ Recommendation.company_name r = Recommendation.company_id r
          ∧ Recommendation.query_company (Recommendation.metadata r)
            = company_id
          ∧ Recommendation.match_score r
            >= Config.similarity_threshold
                 (PartnerInferenceEngine.config self))
    out.
Proof.
  intros [[_ ->]|(qf & all & cf & _ & Hall & ->)]%get_recommendations_inv
    Hall'; [constructor|].
  rewrite Hall in Hall'. injection Hall' as <-.
  apply Forall_forall. intros r Hr.
  eapply elem_of_sublist in Hr; [|apply slice_to_sublist].
  apply sort_desc_elem_of, score_candidates_fields in Hr
    as (c & now & Hc & Hr).
  apply score_candidate_fields in Hr as (f & _ & -> & -> & _ & Hthr & Hq).
  apply list_elem_of_filter in Hc as [_ Hc]. done.
Qed.

Lemma recommendations_well_formed_witness :
  ∃ out,
    PartnerInferenceEngine.get_recommendations Fixtures.uniform_engine
      Fixtures.midnight "LogiChain" 4 None true = Py.Return out
    ∧ length out = 4%nat
    ∧ Forall
        (λ r, Recommendation.company_id r ∈ FeatureStoreClient.mock_companies
              ∧ Recommendation.company_name r = Recommendation.company_id r
              ∧ Recommendation.query_company (Recommendation.metadata r)
                = "LogiChain"
              ∧ Recommendation.match_score r >= 0.1)
        out.
Proof.
  destruct (uniform_engine_recommendations Fixtures.midnight "LogiChain" 4)
    as (out & Hout & Hids & _).
  exists out. split; [exact Hout|]. split.
  - by rewrite <- (length_fmap Recommendation.company_id), Hids.
  - exact (recommendations_well_formed Fixtures.uniform_engine _ _ _ _ _ _ _
             Hout eq_refl).
Defined.

End recommendations_more.

(** ** Which candidates are returned, and what is raised *)

Section selection.
Local Open Scope R_scope.

Lemma get_recommendations_eq (self : PartnerInferenceEngine.t)
    (clock : nat → string) (company_id : string) (top_k : Z)
    (filters : option (gmap string PartnerInferenceEngine.any))
    (include_scores : bool) (query_features : CompanyFeatures.t)
    (all_companies : list string)
    (candidate_features : gmap string CompanyFeatures.t) :
  FeatureStoreClient.get_company_features
    (PartnerInferenceEngine.feature_client self) company_id
    = Py.Return (Some query_features) →
  FeatureStoreClient.get_all_companies
    (PartnerInferenceEngine.feature_client self) = Py.Return all_companies →
  FeatureStoreClient.get_batch_features
    (PartnerInferenceEngine.feature_client self)
    (filter (λ c, c ≠ company_id) all_companies)
    = Py.Return candidate_features →
  PartnerInferenceEngine.get_recommendations self clock company_id top_k
    filters include_scores
  = Py.Return
      (Py.slice_to top_k
         (Py.sort_desc Recommendation.match_score
            (PartnerInferenceEngine.score_candidates self company_id
               query_features candidate_features clock 0
               (filter (λ c, c ≠ company_id) all_companies)))).
Proof.
  intros Hq Hall Hcf. unfold PartnerInferenceEngine.get_recommendations.
  rewrite Hq. simpl. rewrite Hall. simpl. rewrite apply_filters_id.
  replace (if PartnerInferenceEngine.truthy filters then _ else _)
    with (filter (λ c, c ≠ company_id) all_companies) by (by case_match).
  by rewrite Hcf.
Qed.

Lemma score_candidates_complete (self : PartnerInferenceEngine.t)
    (company_id : string) (query_features : CompanyFeatures.t)
    (candidate_features : gmap string CompanyFeatures.t)
    (clock : nat → string) (i : nat) (candidates : list string)
    (c : string) (features : CompanyFeatures.t) :
  c ∈ candidates →
  candidate_features !! c = Some features →
  PartnerInferenceEngine._calculate_match_score self query_features features
    >= Config.similarity_threshold (PartnerInferenceEngine.config self) →
  ∃ r,
    r ∈ PartnerInferenceEngine.score_candidates self company_id
          query_features candidate_features clock i candidates
    ∧ Recommendation.company_id r = c
    ∧ Recommendation.match_score r
      = PartnerInferenceEngine._calculate_match_score self query_features
          features.
Proof.
  intros Hc Hlookup Hthr. revert i.
  induction candidates as [|c' rest IH]; intros i;
    [by apply elem_of_nil in Hc|].
  apply elem_of_cons in Hc as [<-|Hc].
  - simpl. unfold PartnerInferenceEngine.score_candidate at 1.
    rewrite Hlookup, decide_True by done.
    eexists. split; [left|]. done.
  - destruct (IH Hc (S i)) as (r & Hr & Hid & Hs).
    exists r. split; [|done]. simpl.
    destruct (PartnerInferenceEngine.score_candidate _ _ _ _ _ _);
      [by right|done].
Qed.

Lemma slice_to_take {A} (k : Z) (l : list A) :
  ∃ n, Py.slice_to k l = take n l.
Proof. unfold Py.slice_to. case_decide; by eexists. Qed.

(** X10.  The selection keeps the best.  A listed company other than the query
    that has features and scores at or above the threshold is either among
    the recommendations, or every recommendation returned scores at least
    as much; and it is among them when [top_k] is at least the length of
    the listing. *)
Theorem top_k_keeps_the_best (self : PartnerInferenceEngine.t)
    (clock : nat → string) (company_id : string) (top_k : Z)
    (filters : option (gmap string PartnerInferenceEngine.any))
    (include_scores : bool) (query_features : CompanyFeatures.t)
    (all_companies : list string)
    (candidate_features : gmap string CompanyFeatures.t)
    (out : list Recommendation.t) (c : string) (features : CompanyFeatures.t) :
  FeatureStoreClient.get_company_features
    (PartnerInferenceEngine.feature_client self) company_id
    = Py.Return (Some query_features) →
  FeatureStoreClient.get_all_companies
    (PartnerInferenceEngine.feature_client self) = Py.Return all_companies →
  FeatureStoreClient.get_batch_features
    (PartnerInferenceEngine.feature_client self)
    (filter (λ c, c ≠ company_id) all_companies)
    = Py.Return candidate_features →
  PartnerInferenceEngine.get_recommendations self clock company_id top_k
    filters include_scores = Py.Return out →
  c ∈ all_companies → c ≠ company_id →
  candidate_features !! c = Some features →
  let s :=
    PartnerInferenceEngine._calculate_match_score self query_features
      features in
  s >= Config.similarity_threshold (PartnerInferenceEngine.config self) →
  ((∃ r, r ∈ out ∧ Recommendation.company_id r = c
         ∧ Recommendation.match_score r = s)
   ∨ Forall (λ r, s <= Recommendation.match_score r) out)
  ∧ ((Z.of_nat (length all_companies) ≤ top_k)%Z →
     ∃ r, r ∈ out ∧ Recommendation.company_id r = c
          ∧ Recommendation.match_score r = s).
Proof.
  intros Hq Hall Hcf Hout Hc Hne Hlookup s Hthr.
  rewrite (get_recommendations_eq _ _ _ _ _ _ _ _ _ Hq Hall Hcf) in Hout.
  injection Hout as <-.
  set (candidates := filter (λ c, c ≠ company_id) all_companies).
  set (scored :=
         PartnerInferenceEngine.score_candidates self company_id
           query_features candidate_features clock 0 candidates).
  destruct (score_candidates_complete self company_id query_features
              candidate_features clock 0 candidates c features)
    as (r & Hr & Hid & Hs); [by apply list_elem_of_filter|done..|].
  fold scored in Hr.
  apply (sort_desc_elem_of Recommendation.match_score) in Hr.
  split.
  - destruct (slice_to_take top_k
                (Py.sort_desc Recommendation.match_score scored))
      as [n ->].
    pose proof (sort_desc_sorted Recommendation.match_score scored)
      as Hsorted.
    rewrite <- (take_drop n) in Hr, Hsorted.
    apply elem_of_app in Hr as [Hr|Hr].
    + left. by exists r.
    + right. apply Forall_forall. intros r' Hr'.
      pose proof (StronglySorted_app_1_elem_of _ _ _ _ _ Hsorted Hr' Hr)
        as Hdesc.
      unfold Py.desc in Hdesc. subst s. by rewrite <- Hs.
  - intros Hk. exists r. split; [|done].
    unfold Py.slice_to. rewrite decide_True by lia.
    rewrite take_ge; [done|].
    rewrite (Permutation_length (sort_desc_perm _ _)).
    pose proof (sublist_length _ _
                  (score_candidates_ids self company_id query_features
                     candidate_features clock 0 candidates)) as Hlen1.
    rewrite length_fmap in Hlen1. fold scored in Hlen1.
    pose proof (sublist_length _ _
                  (sublist_filter (λ c, c ≠ company_id) all_companies))
      as Hlen2.
    fold candidates in Hlen2. lia.
Qed.

Lemma top_k_keeps_the_best_witness :
  ∃ out,
    PartnerInferenceEngine.get_recommendations Fixtures.uniform_engine
      Fixtures.midnight "TechFlow AI" 12 None true = Py.Return out
    ∧ ∃ r, r ∈ out ∧ Recommendation.company_id r = "SmartCity Tech"
           ∧ Recommendation.match_score r = 0.5.
Proof.
  eexists. split; [reflexivity|].
  refine (proj2 (top_k_keeps_the_best Fixtures.uniform_engine
                   Fixtures.midnight "TechFlow AI" 12 None true _ _ _ _
                   "SmartCity Tech" (Fixtures.features_with_vector [1; 0])
                   eq_refl eq_refl eq_refl eq_refl _ _ _ _) _).
  - apply (bool_decide_unpack (_ ∈ _)). vm_compute. exact I.
  - done.
  - apply lookup_gset_to_gmap_Some. split; [|done].
    apply (bool_decide_unpack (_ ∈ _)). vm_compute. exact I.
  - change (0.5 >= 0.1). lra.
  - unfold FeatureStoreClient.mock_companies. simpl. lia.
Defined.

(** X11.  An exception of any of the three calls to the feature store is the
    exception of [get_recommendations]. *)
Theorem feature_store_errors_propagate (self : PartnerInferenceEngine.t)
    (clock : nat → string) (company_id : string) (top_k : Z)
    (filters : option (gmap string PartnerInferenceEngine.any))
    (include_scores : bool) (e : Py.exn) :
  let client := PartnerInferenceEngine.feature_client self in
  let recommend :=
    PartnerInferenceEngine.get_recommendations self clock company_id top_k
      filters include_scores in
  (FeatureStoreClient.get_company_features client company_id = Py.Raise e →
   recommend = Py.Raise e)
  ∧ (∀ query_features,
       FeatureStoreClient.get_company_features client company_id
         = Py.Return (Some query_features) →
       FeatureStoreClient.get_all_companies client = Py.Raise e →
       recommend = Py.Raise e)
  ∧ (∀ query_features all_companies,
       FeatureStoreClient.get_company_features client company_id
         = Py.Return (Some query_features) →
       FeatureStoreClient.get_all_companies client
         = Py.Return all_companies →
       FeatureStoreClient.get_batch_features client
         (filter (λ c, c ≠ company_id) all_companies) = Py.Raise e →
       recommend = Py.Raise e).
Proof.
  intros client recommend. subst client recommend.
  unfold PartnerInferenceEngine.get_recommendations.
  split; [|split].
  - by intros ->.
  - intros qf -> Hall. simpl. by rewrite Hall.
  - intros qf all -> Hall Hcf. simpl. rewrite Hall. simpl.
    rewrite apply_filters_id.
    replace (if PartnerInferenceEngine.truthy filters then _ else _)
      with (filter (λ c, c ≠ company_id) all) by (by case_match).
    by rewrite Hcf.
Qed.

Lemma feature_store_errors_propagate_witness :
  PartnerInferenceEngine.get_recommendations Fixtures.flaky_engine
    Fixtures.midnight "RetailBot" 5 None true
  = Py.Raise (Py.Exception "feature store unavailable").
Proof.
  apply (feature_store_errors_propagate Fixtures.flaky_engine). reflexivity.
Defined.

End selection.

(** ** The model manager *)

Section manager.

(** X12.  A reload whose load succeeds serves the new session, whatever was
    loaded before: the status reports [loaded = true] with the version
    unchanged, and [predict] answers what the new session answers. *)
Theorem reload_success_serves_new_session (self : ModelManager.t)
    (session : ModelManager.InferenceSession) (gpu : bool) :
  let outcome := ModelManager.reload_model (Py.Return session) self in
  let after := ModelManager.get_model_status gpu outcome.2 in
  outcome.1 = Py.Return ()
  ∧ ModelManager.model outcome.2 = Some session
  ∧ ModelManager.loaded after = true
  ∧ ModelManager.version after
    = ModelManager.version (ModelManager.get_model_status gpu self)
  ∧ ∀ features,
      ModelManager.predict outcome.2 features
      = ModelManager.session_predict session features.
Proof.
  unfold ModelManager.reload_model, ModelManager.load_model.
  destruct self as [[old|] is_loaded v]; simpl; repeat split.
Qed.

(** X13.  After [initialize] on a new manager a model is loaded exactly when the
    weights file exists and the session could be created; [initialize]
    fails exactly when the file exists and the session could not be
    created; the version is the configured one in every case. *)
Theorem initialize_new_manager (config : Config.t) (model_file_exists : bool)
    (create : Py.result ModelManager.InferenceSession) :
  let outcome :=
    ModelManager.initialize model_file_exists create
      (ModelManager.init config) in
  (ModelManager.model_loaded outcome.2 = true
   ↔ model_file_exists = true ∧ ∃ session, create = Py.Return session)
  ∧ ((∃ e, outcome.1 = Py.Raise e)
     ↔ model_file_exists = true ∧ ∃ e, create = Py.Raise e)
  ∧ ModelManager.model_version outcome.2 = Config.model_version config.
Proof.
  unfold ModelManager.initialize, ModelManager.load_model.
  destruct model_file_exists, create as [session|e]; simpl;
    repeat split; intros;
    repeat match goal with
           | H : ∃ _, _ |- _ => destruct H
           | H : _ ∧ _ |- _ => destruct H
           end;
    try done; by eauto.
Qed.

(** X14.  Training that fails before the history is extended (the configuration
    cannot be written, or the model cannot be built and fitted) raises and
    leaves the manager and the history as they were: the model that
    serves is not touched. *)
Theorem train_failure_keeps_serving
    (save_config fit save_history : Py.result ())
    (create : Py.result ModelManager.InferenceSession) (now : string)
    (dataset_path : string) (model_config training_params : gmap string Z)
    (self : ModelManager.t)
    (training_history : list ModelManager.training_record) (e : Py.exn) :
  save_config = Py.Raise e ∨ (save_config = Py.Return () ∧ fit = Py.Raise e) →
  ModelManager.train_model save_config fit save_history create now
    dataset_path model_config training_params self training_history
  = (Py.Raise e, (self, training_history)).
Proof.
  unfold ModelManager.train_model. by intros [->|[-> ->]].
Qed.

Lemma train_failure_keeps_serving_witness :
  ModelManager.train_model (Py.Return ())
    (Py.Raise (Py.Exception "out of memory")) (Py.Return ())
    (Py.Return Fixtures.failing_session) "2024-01-01T00:00:00" "/data" ∅ ∅
    Fixtures.loaded_manager []
  = (Py.Raise (Py.Exception "out of memory"), (Fixtures.loaded_manager, [])).
Proof. apply train_failure_keeps_serving. right. done. Defined.

(** X15.  The training history only grows, by at most one record per training:
    the new history is the old one, or the old one followed by a record
    that carries the clock reading, the arguments of the call and the
    manager's version.  No training changes the version. *)
Theorem train_history_append_only
    (save_config fit save_history : Py.result ())
    (create : Py.result ModelManager.InferenceSession) (now : string)
    (dataset_path : string) (model_config training_params : gmap string Z)
    (self : ModelManager.t)
    (training_history : list ModelManager.training_record) :
  let outcome :=
    ModelManager.train_model save_config fit save_history create now
      dataset_path model_config training_params self training_history in
  let record :=
    {| ModelManager.timestamp := now;
       ModelManager.dataset_path := dataset_path;
       ModelManager.training_config := model_config;
       ModelManager.training_params := training_params;
       ModelManager.trained_model_version :=
         ModelManager.model_version self |} in
  (outcome.2.2 = training_history
   ∨ outcome.2.2 = training_history ++ [record])
  ∧ ModelManager.model_version outcome.2.1 = ModelManager.model_version self.
Proof.
  unfold ModelManager.train_model, ModelManager.load_model.
  destruct save_config, fit, save_history, create; simpl; auto.
Qed.

(** X16.  Training succeeds exactly when its four outside steps succeed; then
    the new session serves and the history has one more record.  When the
    steps up to the history succeed and the final load fails, the record
    is in the history, and the manager reports no model although the old
    session object is kept. *)
Theorem train_outcomes (save_config fit save_history : Py.result ())
    (create : Py.result ModelManager.InferenceSession) (now : string)
    (dataset_path : string) (model_config training_params : gmap string Z)
    (self : ModelManager.t)
    (training_history : list ModelManager.training_record) :
  let outcome :=
    ModelManager.train_model save_config fit save_history create now
      dataset_path model_config training_params self training_history in
  (outcome.1 = Py.Return ()
   ↔ save_config = Py.Return () ∧ fit = Py.Return ()
     ∧ save_history = Py.Return () ∧ ∃ session, create = Py.Return session)
  ∧ (∀ session,
       outcome.1 = Py.Return () → create = Py.Return session →
       ModelManager.model outcome.2.1 = Some session
       ∧ ModelManager.model_loaded outcome.2.1 = true
       ∧ length outcome.2.2 = S (length training_history))
  ∧ (∀ e,
       save_config = Py.Return () → fit = Py.Return () →
       save_history = Py.Return () → create = Py.Raise e →
       outcome.1 = Py.Raise e
       ∧ ModelManager.model outcome.2.1 = ModelManager.model self
       ∧ ModelManager.model_loaded outcome.2.1 = false
       ∧ length outcome.2.2 = S (length training_history)).
Proof.
  unfold ModelManager.train_model, ModelManager.load_model.
  destruct save_config as [[]|e1], fit as [[]|e2], save_history as [[]|e3],
    create as [session|e4]; simpl;
    repeat split; intros;
    repeat match goal with
           | H : ∃ _, _ |- _ => destruct H
           | H : _ ∧ _ |- _ => destruct H
           end;
    simplify_eq; rewrite ?length_app; simpl; try done; try lia; by eauto.
Qed.

Lemma train_outcomes_witness :
  let outcome :=
    ModelManager.train_model (Py.Return ()) (Py.Return ()) (Py.Return ())
      (Py.Raise (Py.Exception "invalid artifact")) "2024-01-01T00:00:00"
      "/data" ∅ ∅ Fixtures.loaded_manager [] in
  outcome.1 = Py.Raise (Py.Exception "invalid artifact")
  ∧ ModelManager.model outcome.2.1
    = ModelManager.model Fixtures.loaded_manager
  ∧ ModelManager.model_loaded outcome.2.1 = false
  ∧ length outcome.2.2 = 1%nat.
Proof.
  intros outcome.
  destruct (train_outcomes (Py.Return ()) (Py.Return ()) (Py.Return ())
              (Py.Raise (Py.Exception "invalid artifact"))
              "2024-01-01T00:00:00" "/data" ∅ ∅ Fixtures.loaded_manager [])
    as (_ & _ & Hfail).
  exact (Hfail _ eq_refl eq_refl eq_refl eq_refl).
Defined.

End manager.

(** ** Scoring with the loaded model *)

Section model_scoring.
Local Open Scope R_scope.

(** X17.  The input of the model has 13 dense values (five features, padded
    with zeros) and 26 sparse values (a company hash in [0, 100000), then
    zeros); a record without a culture vector gets 128 zeros. *)
Theorem model_input_shape (client : FeatureStoreClient.t)
    (features : CompanyFeatures.t) :
  let prepared :=
    FeatureStoreClient._prepare_features_for_model client features in
  length (FeatureStoreClient.dense prepared) = 13%nat
  ∧ drop 5 (FeatureStoreClient.dense prepared) = replicate 8 0
  ∧ length (FeatureStoreClient.sparse prepared) = 26%nat
  ∧ (∃ company_hash,
       FeatureStoreClient.sparse prepared
       = company_hash :: replicate 25 0%Z
       ∧ (0 ≤ company_hash < 100000)%Z)
  ∧ (CompanyFeatures.culture_vector features = None →
     FeatureStoreClient.culture_vector prepared = replicate 128 0).
Proof.
  simpl. repeat split.
  - eexists. split; [reflexivity|]. by apply Z.mod_pos_bound.
  - by intros ->.
Qed.

Lemma model_input_shape_witness :
  FeatureStoreClient.culture_vector
    (FeatureStoreClient._prepare_features_for_model Fixtures.empty_client
       {| CompanyFeatures.company_id := Some "Acme";
          CompanyFeatures.user_overlap_score := None;
          CompanyFeatures.traction_metrics := None;
          CompanyFeatures.culture_vector := None |})
  = replicate 128 0.
Proof.
  refine (proj2 (proj2 (proj2 (proj2
            (model_input_shape Fixtures.empty_client _)))) _).
  reflexivity.
Defined.

(** X18.  With a model loaded the match score is what the session answers for
    the pair, as it is; when the session raises, the score is 0, and a
    positive threshold then leaves the candidate out. *)
Theorem model_scores (self : PartnerInferenceEngine.t)
    (q c : CompanyFeatures.t) :
  let client := PartnerInferenceEngine.feature_client self in
  let prepared_q := FeatureStoreClient._prepare_features_for_model client q in
  let prepared_c := FeatureStoreClient._prepare_features_for_model client c in
  let input :=
    {| ModelManager.dense :=
         FeatureStoreClient.dense prepared_q
         ++ FeatureStoreClient.dense prepared_c;
       ModelManager.sparse_a := FeatureStoreClient.sparse prepared_q;
       ModelManager.sparse_b := FeatureStoreClient.sparse prepared_c |} in
  let answer :=
    ModelManager.predict (PartnerInferenceEngine.model_manager self) input in
  ModelManager.model_loaded (PartnerInferenceEngine.model_manager self)
    = true →
  length (ModelManager.dense input) = 26%nat
  ∧ (∀ s, answer = Py.Return s →
       PartnerInferenceEngine._calculate_match_score self q c = s)
  ∧ (∀ e, answer = Py.Raise e →
       PartnerInferenceEngine._calculate_match_score self q c = 0
       ∧ (0 < Config.similarity_threshold
                (PartnerInferenceEngine.config self) →
          ∀ company_id candidate_features now candidate_id,
            candidate_features !! candidate_id = Some c →
            PartnerInferenceEngine.score_candidate self company_id q
              candidate_features now candidate_id = None)).
Proof.
  intros client prepared_q prepared_c input answer Hloaded.
  assert (PartnerInferenceEngine._calculate_match_score self q c
          = PartnerInferenceEngine.try_except answer 0) as Hscore.
  { unfold PartnerInferenceEngine._calculate_match_score.
    by rewrite Hloaded. }
  split; [done|]. split.
  - intros s Hs. by rewrite Hscore, Hs.
  - intros e He. rewrite He in Hscore. simpl in Hscore. split; [done|].
    intros Hthr company_id candidate_features now candidate_id Hlookup.
    unfold PartnerInferenceEngine.score_candidate.
    rewrite Hlookup, Hscore. rewrite decide_False by lra. done.
Qed.

Lemma model_scores_witness :
  let x := Fixtures.features_with_vector [1; 0] in
  PartnerInferenceEngine._calculate_match_score Fixtures.failing_engine x x
  = 0
  ∧ PartnerInferenceEngine.score_candidate Fixtures.failing_engine
      "TechFlow AI" x {["LogiChain" := x]} "2024-01-01T00:00:00" "LogiChain"
    = None.
Proof.
  intros x.
  destruct (model_scores Fixtures.failing_engine x x eq_refl)
    as (_ & _ & Hraise).
  destruct (Hraise (Py.Exception "inference failed") eq_refl)
    as [Hzero Hskip].
  split; [exact Hzero|].
  apply Hskip; [simpl; lra|]. apply lookup_singleton_eq.
Defined.

End model_scoring.

(** ** More about batches *)

Section batch_more.

Lemma size_list_to_set_le (l : list string) :
  size (list_to_set l : gset string) ≤ length l.
Proof.
  induction l as [|x l IH].
  - change (size (∅ : gset string) ≤ 0). by rewrite size_empty.
  - change (size (({[x]} : gset string) ∪ list_to_set l) ≤ S (length l)).
    rewrite size_union_alt, size_singleton.
    assert (size ((list_to_set l : gset string) ∖ {[x]})
            ≤ size (list_to_set l : gset string)) as Hle.
    { apply subseteq_size, subseteq_difference_l. done. }
    lia.
Qed.

(** X19.  For every list of company ids, repeated ids included, the keys of the
    batch map are the ids of the list, so the map has at most as many
    entries as the list. *)
Theorem batch_keys (self : PartnerInferenceEngine.t)
    (clock : nat → nat → string) (company_ids : list string) (top_k : Z) :
  ∃ batch_results,
    PartnerInferenceEngine.get_batch_recommendations self clock company_ids
      top_k = Py.Return batch_results
    ∧ dom batch_results = list_to_set company_ids
    ∧ size batch_results ≤ length company_ids.
Proof.
  eexists. split; [reflexivity|].
  assert ((imap (PartnerInferenceEngine.process_company self clock top_k)
             company_ids).*1 = company_ids) as Hkeys.
  { apply imap_keys. intros i x. by rewrite process_company_eq. }
  assert (dom (foldl
                 (λ batch_results result,
                    <[result.1 := result.2]> batch_results)
                 (∅ : gmap string (list Recommendation.t))
                 (imap (PartnerInferenceEngine.process_company self clock
                          top_k) company_ids))
          = (list_to_set company_ids : gset string)) as Hdom.
  { by rewrite collect_dom, Hkeys, dom_empty_L, (right_id_L ∅ (∪)). }
  split; [exact Hdom|].
  rewrite <- size_dom, Hdom. apply size_list_to_set_le.
Qed.

End batch_more.

(** ** The cache of a background batch *)

Section batch_cache.

Lemma get_batch_recommendations_dom (self : PartnerInferenceEngine.t)
    (clock : nat → nat → string) (company_ids : list string) (top_k : Z)
    (batch_results : gmap string (list Recommendation.t)) (id : string) :
  PartnerInferenceEngine.get_batch_recommendations self clock company_ids
    top_k = Py.Return batch_results →
  is_Some (batch_results !! id) → id ∈ company_ids.
Proof.
  intros [= <-] Hsome. apply elem_of_dom in Hsome.
  rewrite collect_dom, dom_empty_L, (right_id_L ∅ (∪)) in Hsome.
  rewrite imap_keys in Hsome by (intros i x; by rewrite process_company_eq).
  by apply elem_of_list_to_set in Hsome.
Qed.

(** X20.  A background batch writes under the keys of its company ids only:
    every other key of the cache keeps its entry, or stays absent. *)
Theorem batch_cache_frame (self : PartnerInferenceEngine.t)
    (json_dumps : list Recommendation.t → string)
    (clock : nat → nat → string) (redis_client : gmap string (Z * string))
    (company_ids : list string) (top_k : Z) (key : string) :
  (∀ company_id,
     company_id ∈ company_ids →
     key ≠ "batch_recommendations:" +:+ company_id) →
  PartnerInferenceEngine.process_batch_recommendations self json_dumps clock
    redis_client company_ids top_k !! key
  = redis_client !! key.
Proof.
  intros Hkey.
  unfold PartnerInferenceEngine.process_batch_recommendations.
  destruct (PartnerInferenceEngine.get_batch_recommendations _ _ _ _)
    as [batch_results|e] eqn:Hbatch; [|done].
  assert (∀ id, is_Some (batch_results !! id) → id ∈ company_ids) as Hdom.
  { intros id. by apply (get_batch_recommendations_dom _ _ _ _ _ _ Hbatch). }
  clear Hbatch. revert Hdom.
  apply (map_fold_weak_ind
           (λ redis (m : gmap string (list Recommendation.t)),
              (∀ id, is_Some (m !! id) → id ∈ company_ids) →
              redis !! key = redis_client !! key)); [done|].
  intros i x m redis Hfresh IH Hdom.
  rewrite lookup_insert_ne.
  - apply IH. intros id Hid. apply Hdom.
    destruct (decide (i = id)) as [->|Hne].
    + rewrite Hfresh in Hid. by destruct Hid.
    + by rewrite lookup_insert_ne.
  - intros Heq. apply (Hkey i); [|done].
    apply Hdom. rewrite lookup_insert_eq. by eexists.
Qed.

Lemma batch_cache_frame_witness :
  PartnerInferenceEngine.process_batch_recommendations
    Fixtures.unloaded_engine Fixtures.dump_ids (λ _, Fixtures.midnight)
    {["session:42" := (60%Z, "open")]} ["Acme"] 10 !! "session:42"
  = Some (60%Z, "open").
Proof.
  rewrite batch_cache_frame; [apply lookup_singleton_eq|].
  intros company_id ->%list_elem_of_singleton. discriminate.
Defined.

End batch_cache.

(** ** The feature client over HTTP *)

Section http.

Lemma add_feature_keyed (data : list CompanyFeatures.t)
    (features_map : gmap string CompanyFeatures.t) :
  (∀ k f, features_map !! k = Some f →
     CompanyFeatures.company_id f = Some k ∧ k ≠ "") →
  ∀ k f, foldl FeatureStoreClient.Http.add_feature features_map data !! k
         = Some f →
    CompanyFeatures.company_id f = Some k ∧ k ≠ "".
Proof.
  revert features_map.
  induction data as [|feature data IH]; intros features_map Hinv; [done|].
  simpl. apply IH. intros k f.
  unfold FeatureStoreClient.Http.add_feature.
  destruct (CompanyFeatures.company_id feature) as [id|] eqn:Hid;
    [|by apply Hinv].
  case_decide as Hne; [|by apply Hinv].
  destruct (decide (id = k)) as [->|Hk].
  - rewrite lookup_insert_eq. by intros [= <-].
  - rewrite lookup_insert_ne by done. by apply Hinv.
Qed.

(** X21.  Every entry of the map [get_batch_features] returns is filed under the
    company id its record carries, and no entry has the empty id. *)
Theorem http_batch_features_keyed
    (http_client : option FeatureStoreClient.Http.client)
    (company_ids : list string) (k : string) (f : CompanyFeatures.t) :
  FeatureStoreClient.Http.get_batch_features http_client company_ids !! k
    = Some f →
  CompanyFeatures.company_id f = Some k ∧ k ≠ "".
Proof.
  unfold FeatureStoreClient.Http.get_batch_features.
  destruct http_client as [http|]; simpl; [|done].
  destruct (FeatureStoreClient.Http.post_online http company_ids)
    as [response|e]; simpl; [|done].
  case_decide; [|done].
  destruct (FeatureStoreClient.Http.json response) as [data|e]; simpl;
    [|done].
  by apply add_feature_keyed.
Qed.

Lemma http_batch_features_keyed_witness :
  FeatureStoreClient.Http.get_batch_features (Some Fixtures.healthy_http)
    ["LogiChain"; "CyberGuard"] !! "CyberGuard"
  = Some (Fixtures.named_features "CyberGuard")
  ∧ CompanyFeatures.company_id (Fixtures.named_features "CyberGuard")
    = Some "CyberGuard"
  ∧ "CyberGuard" ≠ "".
Proof.
  assert (FeatureStoreClient.Http.get_batch_features
            (Some Fixtures.healthy_http) ["LogiChain"; "CyberGuard"]
          !! "CyberGuard" = Some (Fixtures.named_features "CyberGuard"))
    as Hlookup by (vm_compute; reflexivity).
  split; [exact Hlookup|].
  exact (http_batch_features_keyed _ _ _ _ Hlookup).
Defined.

(** X22.  The client answers a feature record only from an answer of the
    feature store with status 200 whose body is that record; without a
    client, on a transport error, on another status and on a body that is
    not JSON it answers the empty dict. *)
Theorem http_features_only_from_200
    (http_client : option FeatureStoreClient.Http.client)
    (company_id : string) (f : CompanyFeatures.t) :
  FeatureStoreClient.Http.get_company_features http_client company_id
    = Some f →
  ∃ http response,
    http_client = Some http
    ∧ FeatureStoreClient.Http.post_company http company_id
      = Py.Return response
    ∧ FeatureStoreClient.Http.status_code response = 200%Z
    ∧ FeatureStoreClient.Http.json response = Py.Return (Some f).
Proof.
  unfold FeatureStoreClient.Http.get_company_features.
  destruct http_client as [http|]; simpl; [|done].
  destruct (FeatureStoreClient.Http.post_company http company_id)
    as [response|e] eqn:Hpost; simpl; [|done].
  case_decide as Hstatus; [|done].
  destruct (FeatureStoreClient.Http.json response) as [body|e] eqn:Hjson;
    [|done].
  intros ->. by exists http, response.
Qed.

Lemma http_features_only_from_200_witness :
  ∃ http response,
    Some Fixtures.healthy_http = Some http
    ∧ FeatureStoreClient.Http.post_company http "LogiChain"
      = Py.Return response
    ∧ FeatureStoreClient.Http.status_code response = 200%Z
    ∧ FeatureStoreClient.Http.json response
      = Py.Return (Some (Fixtures.named_features "LogiChain")).
Proof.
  apply (http_features_only_from_200 (Some Fixtures.healthy_http)
           "LogiChain").
  reflexivity.
Defined.

(** X23.  With the client over HTTP the engine never raises, whatever the HTTP
    layer does; it recommends only companies of the built-in list; and
    without an initialised HTTP client it recommends nothing. *)
Theorem http_engine_always_returns
    (http_client : option FeatureStoreClient.Http.client)
    (hash : string → Z) (model_manager : ModelManager.t) (config : Config.t)
    (clock : nat → string) (company_id : string) (top_k : Z)
    (filters : option (gmap string PartnerInferenceEngine.any))
    (include_scores : bool) :
  let self :=
    {| PartnerInferenceEngine.model_manager := model_manager;
       PartnerInferenceEngine.feature_client :=
         FeatureStoreClient.Http.make http_client hash;
       PartnerInferenceEngine.config := config |} in
  ∃ out,
    PartnerInferenceEngine.get_recommendations self clock company_id top_k
      filters include_scores = Py.Return out
    ∧ Forall (λ r, Recommendation.company_id r
                   ∈ FeatureStoreClient.mock_companies) out
    ∧ (http_client = None → out = []).
Proof.
  intros self.
  destruct (FeatureStoreClient.Http.get_company_features http_client
              company_id) as [qf|] eqn:Hq.
  - rewrite (get_recommendations_eq self clock company_id top_k filters
               include_scores qf
               (FeatureStoreClient.Http.get_all_companies http_client)
               (FeatureStoreClient.Http.get_batch_features http_client
                  (filter (λ c, c ≠ company_id)
                     (FeatureStoreClient.Http.get_all_companies
                        http_client))));
      [|simpl; by rewrite ?Hq..].
    eexists. split; [done|]. split.
    + apply Forall_forall. intros r Hr.
      eapply elem_of_sublist in Hr; [|apply slice_to_sublist].
      apply sort_desc_elem_of, score_candidates_elem_of in Hr as [Hr _].
      apply list_elem_of_filter in Hr as [_ Hr].
      unfold FeatureStoreClient.Http.get_all_companies in Hr.
      destruct http_client as [http|]; simpl in Hr;
        [|by apply elem_of_nil in Hr].
      destruct (FeatureStoreClient.Http.get_stats http) as [response|e];
        simpl in Hr; [|by apply elem_of_nil in Hr].
      case_decide; [done|by apply elem_of_nil in Hr].
    + intros ->. done.
  - exists []. split; [|split; [constructor|done]].
    unfold PartnerInferenceEngine.get_recommendations. simpl. by rewrite Hq.
Qed.

Lemma http_engine_always_returns_witness :
  PartnerInferenceEngine.get_recommendations
    {| PartnerInferenceEngine.model_manager := Fixtures.loaded_manager;
       PartnerInferenceEngine.feature_client :=
         FeatureStoreClient.Http.make None (λ _, 0%Z);
       PartnerInferenceEngine.config := Fixtures.default_config |}
    Fixtures.midnight "TechFlow AI" 5 None true
  = Py.Return [].
Proof.
  destruct (http_engine_always_returns None (λ _, 0%Z)
              Fixtures.loaded_manager Fixtures.default_config
              Fixtures.midnight "TechFlow AI" 5 None true)
    as (out & Hout & _ & Hnone).
  rewrite Hout. f_equal. by apply Hnone.
Defined.

End http.

(** ** Explanations *)

Section explanations.
Local Open Scope R_scope.

(** X24.  The feature contributions are at most two, at most [top_features]
    when that is not negative, sorted by descending contribution, and each
    is its value times the weight of its feature: 0.3 for the user
    overlap, 0.25 for the funding alignment. *)
Theorem feature_contributions_ranked
    (query_features partner_features : CompanyFeatures.t) (top_features : Z) :
  let contributions :=
    PartnerInferenceEngine._analyze_feature_contributions query_features
      partner_features top_features in
  (length contributions ≤ 2)%nat
  ∧ ((0 ≤ top_features)%Z →
     (Z.of_nat (length contributions) ≤ top_features)%Z)
  ∧ ((2 ≤ top_features)%Z → length contributions = 2%nat)
  ∧ StronglySorted (Py.desc PartnerInferenceEngine.contribution)
      contributions
  ∧ Forall
      (λ c,
         (PartnerInferenceEngine.feature c = "user_overlap_score"
          ∧ PartnerInferenceEngine.contribution c
            = PartnerInferenceEngine.value c * 0.3)
         ∨ (PartnerInferenceEngine.feature c = "funding_alignment"
            ∧ PartnerInferenceEngine.contribution c
              = PartnerInferenceEngine.value c * 0.25))
      contributions.
Proof.
  intros contributions. subst contributions.
  unfold PartnerInferenceEngine._analyze_feature_contributions. cbv zeta.
  match goal with
  | |- context [Py.sort_desc _ ?l] => set (unsorted := l)
  end.
  set (sorted := Py.sort_desc PartnerInferenceEngine.contribution unsorted).
  assert (length sorted = 2%nat) as Hlen
    by (unfold sorted; by rewrite (Permutation_length (sort_desc_perm _ _))).
  assert (Forall
            (λ c,
               (PartnerInferenceEngine.feature c = "user_overlap_score"
                ∧ PartnerInferenceEngine.contribution c
                  = PartnerInferenceEngine.value c * 0.3)
               ∨ (PartnerInferenceEngine.feature c = "funding_alignment"
                  ∧ PartnerInferenceEngine.contribution c
                    = PartnerInferenceEngine.value c * 0.25))
            sorted) as Hall.
  { unfold sorted. rewrite sort_desc_perm. unfold unsorted.
    constructor; [by left|]. constructor; [by right|]. constructor. }
  pose proof (slice_to_sublist top_features sorted) as Hsub.
  split; [|split; [|split; [|split]]].
  - apply sublist_length in Hsub. lia.
  - apply slice_to_length.
  - intros Htop. unfold Py.slice_to. rewrite decide_True by lia.
    rewrite take_ge by lia. done.
  - eapply StronglySorted_sublist; [done|]. apply sort_desc_sorted.
  - apply Forall_forall. intros c Hc.
    eapply Forall_forall in Hall; [done|]. by eapply elem_of_sublist.
Qed.

Lemma feature_contributions_ranked_witness :
  let contributions :=
    PartnerInferenceEngine._analyze_feature_contributions
      (Fixtures.named_features "LogiChain")
      (Fixtures.named_features "CyberGuard") 1 in
  (Z.of_nat (length contributions) ≤ 1)%Z
  ∧ StronglySorted (Py.desc PartnerInferenceEngine.contribution)
      contributions.
Proof.
  intros contributions.
  destruct (feature_contributions_ranked
              (Fixtures.named_features "LogiChain")
              (Fixtures.named_features "CyberGuard") 1)
    as (_ & Hlen & _ & Hsorted & _).
  split; [apply Hlen; lia|exact Hsorted].
Defined.



End explanations.

(** ** The endpoints *)

Section endpoints.

(** X26.  [/recommend] answers with the engine's list, with [total_candidates]
    the number of recommendations returned (at most [top_k] when that is
    not negative) and with the manager's version; it answers with status
    500 and the exception's message exactly when the engine raises. *)
Theorem recommend_endpoint (engine : PartnerInferenceEngine.t) (gpu : bool)
    (clock : nat → string) (inference_time : R)
    (request : Api.RecommendationRequest) :
  let recommend :=
    PartnerInferenceEngine.get_recommendations engine clock
      (Api.company_id request) (Api.top_k request) (Api.filters request)
      (Api.include_scores request) in
  match
    Api.recommend_partners engine gpu clock inference_time request
  with
  | Api.Body response =>
      recommend = Py.Return (Api.recommendations response)
      ∧ Api.total_candidates response
        = length (Api.recommendations response)
      ∧ ((0 ≤ Api.top_k request)%Z →
         (Z.of_nat (Api.total_candidates response) ≤ Api.top_k request)%Z)
      ∧ Api.query_company_id response = Api.company_id request
      ∧ Api.model_version response
        = ModelManager.model_version
            (PartnerInferenceEngine.model_manager engine)
  | Api.HTTPException status_code detail =>
      status_code = 500%Z
      ∧ ∃ message,
          recommend = Py.Raise (Py.Exception message)
          ∧ detail = "Recommendation failed: " +:+ message
  end.
Proof.
  intros recommend. unfold Api.recommend_partners. fold recommend.
  destruct recommend as [out|[message]] eqn:Hout; simpl.
  - repeat split. intros Htop.
    apply get_recommendations_inv in Hout
      as [[_ ->]|(qf & all & cf & _ & _ & ->)]; [simpl; lia|].
    by apply slice_to_length.
  - split; [done|]. by exists message.
Qed.

Lemma recommend_endpoint_witness :
  ∃ response,
    Api.recommend_partners Fixtures.uniform_engine true Fixtures.midnight
      12.5%R (Api.mk_request "TechFlow AI" 5 None true)
    = Api.Body response
    ∧ (Z.of_nat (Api.total_candidates response) ≤ 5)%Z
    ∧ Api.model_version response = "v1.0.0".
Proof.
  pose proof (recommend_endpoint Fixtures.uniform_engine true
                Fixtures.midnight 12.5%R
                (Api.mk_request "TechFlow AI" 5 None true)) as Hendpoint.
  eexists. split; [reflexivity|].
  destruct Hendpoint as (_ & _ & Hlen & _ & Hversion).
  split; [apply Hlen; simpl; lia|exact Hversion].
Defined.

(** X27.  [/batch-recommend] with more than 100 ids and a task queue computes
    nothing and queues one background task for the ids; otherwise it
    queues nothing and answers with the batch map, whose
    [processed_count] is the number of different ids of the request. *)
Theorem batch_endpoint (engine : PartnerInferenceEngine.t)
    (clock : nat → nat → string) (company_ids : list string) (top_k : Z)
    (background_tasks : option (list Api.background_task)) :
  let outcome :=
    Api.batch_recommend_partners engine clock company_ids top_k
      background_tasks in
  (∀ tasks,
     100 < length company_ids → background_tasks = Some tasks →
     (∃ message estimated_completion,
        outcome.1 = Api.Body (Api.Accepted message estimated_completion))
     ∧ outcome.2 = Some (tasks ++ [Api.mk_task company_ids top_k]))
  ∧ (length company_ids ≤ 100 ∨ background_tasks = None →
     outcome.2 = background_tasks
     ∧ ∃ batch_results,
         outcome.1
         = Api.Body (Api.Completed batch_results (size batch_results))
         ∧ PartnerInferenceEngine.get_batch_recommendations engine clock
             company_ids top_k = Py.Return batch_results
         ∧ size batch_results = size (list_to_set company_ids : gset string)).
Proof.
  intros outcome. subst outcome. unfold Api.batch_recommend_partners.
  destruct (PartnerInferenceEngine.get_batch_recommendations engine clock
              company_ids top_k) as [batch_results|e] eqn:Hbatch; [|done].
  assert (size batch_results = size (list_to_set company_ids : gset string))
    as Hsize.
  { injection Hbatch as <-.
    rewrite <- size_dom, collect_dom, dom_empty_L, (right_id_L ∅ (∪)).
    by rewrite imap_keys by (intros i x; by rewrite process_company_eq). }
  split.
  - intros tasks Hlen ->. rewrite decide_True by done. simpl.
    split; [by eexists _, _|done].
  - intros [Hlen| ->].
    + rewrite decide_False by lia. simpl. split; [done|].
      by exists batch_results.
    + case_decide; simpl; (split; [done|]); by exists batch_results.
Qed.

Lemma batch_endpoint_witness :
  let outcome :=
    Api.batch_recommend_partners Fixtures.flaky_engine
      (λ _, Fixtures.midnight) ["TechFlow AI"; "RetailBot"; "TechFlow AI"] 5
      (Some []) in
  outcome.2 = Some []
  ∧ ∃ batch_results,
      outcome.1 = Api.Body (Api.Completed batch_results (size batch_results))
      ∧ PartnerInferenceEngine.get_batch_recommendations
          Fixtures.flaky_engine (λ _, Fixtures.midnight)
          ["TechFlow AI"; "RetailBot"; "TechFlow AI"] 5
        = Py.Return batch_results
      ∧ size batch_results
        = size (list_to_set ["TechFlow AI"; "RetailBot"; "TechFlow AI"]
                : gset string).
Proof.
  intros outcome.
  destruct (batch_endpoint Fixtures.flaky_engine (λ _, Fixtures.midnight)
              ["TechFlow AI"; "RetailBot"; "TechFlow AI"] 5 (Some []))
    as [_ Hsync].
  apply Hsync. left. simpl. lia.
Defined.

End endpoints.
